(** * CAP2 banking application: account ledger, persistence and transfers

    A shallow embedding of [CAP2_02230090.py].  Python values are modelled
    as follows.

    - [str]   : [string]; a string stands for its UTF-8 bytes, so
                [password.encode()] is the list of its character codes.
    - [float] : Rocq's primitive binary64 floats ([PrimFloat.float]); the
                operators [+], [-] and [>=] of the source are the IEEE 754
                operations [PrimFloat.add], [PrimFloat.sub], [PrimFloat.leb].
    - objects : [Account] instances live in an object store (a list indexed
                by references); the [accounts] dict of [BankingApp] maps an
                account number to a reference, in insertion order.
    - the file [accounts.txt] : [None] when absent, else its text.
    - [random.randint] : the drawn integers are arguments of the operation. *)

From Stdlib Require Import ZArith List Ascii String Floats Lia Bool.
From Stdlib Require Import DecimalString DecimalZ DecimalPos.
From stdpp Require Import base option list.

Import ListNotations.
Local Open Scope string_scope.
Local Open Scope Z_scope.

(* ===================================================================== *)
(** * [hashlib.sha256]: SHA-256 after FIPS 180-4, on 32-bit words held in [Z] *)
(* ===================================================================== *)

Module Sha256.

Definition mask32 : Z := 0xffffffff.
Definition w32 (x : Z) : Z := Z.land x mask32.
Definition add32 (x y : Z) : Z := w32 (x + y).
Definition not32 (x : Z) : Z := Z.lxor x mask32.
Definition rotr (n x : Z) : Z :=
  Z.lor (Z.shiftr x n) (w32 (Z.shiftl x (32 - n))).

Definition Ch (x y z : Z) : Z := Z.lxor (Z.land x y) (Z.land (not32 x) z).
Definition Maj (x y z : Z) : Z :=
  Z.lxor (Z.lxor (Z.land x y) (Z.land x z)) (Z.land y z).
Definition bsig0 (x : Z) : Z := Z.lxor (Z.lxor (rotr 2 x) (rotr 13 x)) (rotr 22 x).
Definition bsig1 (x : Z) : Z := Z.lxor (Z.lxor (rotr 6 x) (rotr 11 x)) (rotr 25 x).
Definition ssig0 (x : Z) : Z := Z.lxor (Z.lxor (rotr 7 x) (rotr 18 x)) (Z.shiftr x 3).
Definition ssig1 (x : Z) : Z := Z.lxor (Z.lxor (rotr 17 x) (rotr 19 x)) (Z.shiftr x 10).

(** The first 64 primes. *)
Definition primes : list Z :=
  [2; 3; 5; 7; 11; 13; 17; 19; 23; 29; 31; 37; 41; 43; 47; 53;
   59; 61; 67; 71; 73; 79; 83; 89; 97; 101; 103; 107; 109; 113; 127; 131;
   137; 139; 149; 151; 157; 163; 167; 173; 179; 181; 191; 193; 197; 199;
   211; 223; 227; 229; 233; 239; 241; 251; 257; 263; 269; 271; 277; 281;
   283; 293; 307; 311].

(** Integer cube root of [n], found bit by bit below bit [b]. *)
Fixpoint cbrt_bits (b : nat) (n r : Z) : Z :=
  match b with
  | O => r
  | S b' =>
      let c := r + 2 ^ Z.of_nat b' in
      cbrt_bits b' n (if c * c * c <=? n then c else r)
  end.

(** The first 32 bits of the fractional part of a cube root, of a square root. *)
Definition frac_cbrt (p : Z) : Z := w32 (cbrt_bits 36 (p * 2 ^ 96) 0).
Definition frac_sqrt (p : Z) : Z := w32 (Z.sqrt (p * 2 ^ 64)).

(** Round constants: from the cube roots of the first 64 primes. *)
Definition K : list Z := Eval vm_compute in map frac_cbrt primes.

(** Initial hash value: from the square roots of the first 8 primes. *)
Definition H0 : list Z := Eval vm_compute in map frac_sqrt (firstn 8 primes).

(** [be_bytes n x]: the [n] low-order bytes of [x], most significant first. *)
Fixpoint be_bytes (n : nat) (x : Z) : list Z :=
  match n with
  | O => []
  | S n' => Z.land (Z.shiftr x (8 * Z.of_nat n')) 0xff :: be_bytes n' x
  end.

(** Padding: a one bit, zeros, then the bit length on 64 bits. *)
Definition pad (msg : list Z) : list Z :=
  let len := Z.of_nat (length msg) in
  msg ++ [0x80] ++ repeat 0 (Z.to_nat ((55 - len) mod 64)) ++ be_bytes 8 (8 * len).

(** Big-endian 32-bit words of a byte list (a trailing partial word is dropped;
    padded messages have none). *)
Fixpoint words (bs : list Z) : list Z :=
  match bs with
  | b0 :: b1 :: b2 :: b3 :: rest =>
      (Z.shiftl b0 24 + Z.shiftl b1 16 + Z.shiftl b2 8 + b3) :: words rest
  | _ => []
  end.

(** Message schedule: [n] further words after the ones in [w]. *)
Fixpoint schedule (n : nat) (w : list Z) : list Z :=
  match n with
  | O => w
  | S n' =>
      let t := length w in
      let at_ (k : nat) := nth (t - k) w 0 in
      schedule n'
        (w ++ [add32 (add32 (ssig1 (at_ 2%nat)) (at_ 7%nat))
                     (add32 (ssig0 (at_ 15%nat)) (at_ 16%nat))])
  end.

Record regs := Regs { ra : Z; rb : Z; rc : Z; rd : Z; re : Z; rf : Z; rg : Z; rh : Z }.

Definition round (s : regs) (kw : Z * Z) : regs :=
  let t1 := add32 (add32 (add32 (rh s) (bsig1 (re s))) (Ch (re s) (rf s) (rg s)))
                  (add32 (fst kw) (snd kw)) in
  let t2 := add32 (bsig0 (ra s)) (Maj (ra s) (rb s) (rc s)) in
  Regs (add32 t1 t2) (ra s) (rb s) (rc s) (add32 (rd s) t1) (re s) (rf s) (rg s).

Definition compress (h : regs) (block : list Z) : regs :=
  let s := fold_left round (combine K (schedule 48 block)) h in
  Regs (add32 (ra h) (ra s)) (add32 (rb h) (rb s)) (add32 (rc h) (rc s))
       (add32 (rd h) (rd s)) (add32 (re h) (re s)) (add32 (rf h) (rf s))
       (add32 (rg h) (rg s)) (add32 (rh h) (rh s)).

(** The blocks of a word list, sixteen words each; [n] bounds their number. *)
Fixpoint blocks (n : nat) (ws : list Z) : list (list Z) :=
  match n, ws with
  | S n', _ :: _ => firstn 16 ws :: blocks n' (skipn 16 ws)
  | _, _ => []
  end.

Definition init : regs :=
  Regs (nth 0 H0 0) (nth 1 H0 0) (nth 2 H0 0) (nth 3 H0 0)
       (nth 4 H0 0) (nth 5 H0 0) (nth 6 H0 0) (nth 7 H0 0).

Definition digest (msg : list Z) : list Z :=
  let ws := words (pad msg) in
  let h := fold_left compress (blocks (length ws) ws) init in
  flat_map (be_bytes 4) [ra h; rb h; rc h; rd h; re h; rf h; rg h; rh h].

Definition hex_digit (d : Z) : ascii :=
  ascii_of_N (Z.to_N (if d <? 10 then 48 + d else 87 + d)).

Fixpoint hex (bs : list Z) : string :=
  match bs with
  | [] => EmptyString
  | b :: rest =>
      String (hex_digit (Z.shiftr b 4)) (String (hex_digit (Z.land b 0xf)) (hex rest))
  end.

(** [str.encode()]: the bytes of a string. *)
Definition encode (s : string) : list Z :=
  map (fun c => Z.of_N (N_of_ascii c)) (list_ascii_of_string s).

(** [hashlib.sha256(b).hexdigest()] *)
Definition hexdigest (bs : list Z) : string := hex (digest bs).

End Sha256.

(** [hash_password(password)]: [hashlib.sha256(password.encode()).hexdigest()]. *)
Definition hash_password (password : string) : string :=
  Sha256.hexdigest (Sha256.encode password).

(* ===================================================================== *)
(** * Python [str] and text-file primitives used by the source *)
(* ===================================================================== *)

Module PyStr.

Definition code (c : ascii) : Z := Z.of_N (N_of_ascii c).

(** Text is modelled on the ASCII range (codes below 128), where a character
    is a byte; every statement about reading a file is made for ASCII text
    ([ascii_text] below).  [c.isspace()] there: TAB..CR, FS..US and the
    space. *)
Definition is_space (c : ascii) : bool :=
  let n := code c in
  ((9 <=? n) && (n <=? 13)) || ((28 <=? n) && (n <=? 32)).

Fixpoint lstrip (s : string) : string :=
  match s with
  | String c rest => if is_space c then lstrip rest else s
  | EmptyString => EmptyString
  end.

Fixpoint rstrip (s : string) : string :=
  match s with
  | String c rest =>
      match rstrip rest with
      | EmptyString => if is_space c then EmptyString else String c EmptyString
      | kept => String c kept
      end
  | EmptyString => EmptyString
  end.

(** [s.strip()] *)
Definition strip (s : string) : string := rstrip (lstrip s).

(** [s.split(sep)] for a one-character separator: never an empty list. *)
Fixpoint split (sep : ascii) (s : string) : list string :=
  match s with
  | EmptyString => [EmptyString]
  | String c rest =>
      if Ascii.eqb c sep then EmptyString :: split sep rest
      else match split sep rest with
           | field :: fields => String c field :: fields
           | [] => [String c EmptyString]
           end
  end.

(** [str(n)] for an [int]. *)
Definition of_int (n : Z) : string := NilZero.string_of_int (Z.to_int n).

Definition LF : ascii := ascii_of_N 10.
Definition CR : ascii := ascii_of_N 13.
Definition newline : string := String LF EmptyString.

(** Reading in text mode translates the line ends CR LF and CR to LF. *)
Fixpoint universal_newlines (s : string) : string :=
  match s with
  | String c rest =>
      if Ascii.eqb c CR then
        match rest with
        | String c' rest' =>
            if Ascii.eqb c' LF then String LF (universal_newlines rest')
            else String LF (universal_newlines rest)
        | EmptyString => String LF EmptyString
        end
      else String c (universal_newlines rest)
  | EmptyString => EmptyString
  end.

(** The lines of a text, each with its line end, as [for line in f] yields them. *)
Fixpoint lines_keepends (s : string) : list string :=
  match s with
  | EmptyString => []
  | String c rest =>
      if Ascii.eqb c LF then String c EmptyString :: lines_keepends rest
      else match lines_keepends rest with
           | line :: more => String c line :: more
           | [] => [String c EmptyString]
           end
  end.

Definition readlines (text : string) : list string :=
  lines_keepends (universal_newlines text).

Definition concat (parts : list string) : string :=
  fold_right String.append EmptyString parts.

End PyStr.

(* ===================================================================== *)
(** * Python [float]: [repr] (as used by an f-string) and [float(str)] *)
(* ===================================================================== *)

Module PyFloat.

(** The binary64 value nearest to [(-1)^neg * d * 10^q] (ties to even),
    computed exactly on integers. *)
Definition sf_of_decimal (neg : bool) (d q : Z) : spec_float :=
  match d with
  | Zpos p =>
      if 0 <=? q
      then binary_normalize prec emax (cond_Zopp neg (Zpos p * 10 ^ q)) 0 false
      else SFdiv prec emax (S754_finite neg p 0)
                           (S754_finite false (Z.to_pos (10 ^ (- q))) 0)
  | _ => S754_zero neg
  end.

Definition of_decimal (neg : bool) (d q : Z) : float :=
  SF2Prim (sf_of_decimal neg d q).

(** ** Shortest digits that read back as [m * 2^e] *)
Section Shortest.
Variables (m : positive) (e : Z).

(** The value as a fraction [num / den]. *)
Definition num : Z := if 0 <=? e then Zpos m * 2 ^ e else Zpos m.
Definition den : Z := if 0 <=? e then 1 else 2 ^ (- e).

Definition below_pow10 (d : Z) : bool :=
  if 0 <=? d then num <? den * 10 ^ d else num * 10 ^ (- d) <? den.

(** The decimal point position [d]: [10^(d-1) <= value < 10^d]. *)
Fixpoint find_decpt (fuel : nat) (d : Z) : Z :=
  match fuel with
  | O => d
  | S fuel' =>
      if below_pow10 d
      then if below_pow10 (d - 1) then find_decpt fuel' (d - 1) else d
      else find_decpt fuel' (d + 1)
  end.

Definition decpt : Z :=
  find_decpt 8 (((Zpos (digits2_pos m) + e) * 30103) / 100000).

Definition reads_back (c q : Z) : bool :=
  SFeqb (sf_of_decimal false c q) (S754_finite false m e).

(** The two [k]-digit neighbours of the value; [nearest] ignores read-back. *)
Definition neighbours (k : Z) : Z * Z * Z :=
  let q := decpt - k in
  let n := if 0 <=? q then num else num * 10 ^ (- q) in
  let d := if 0 <=? q then den * 10 ^ q else den in
  (n / d, n mod d, d).

Definition nearest (k : Z) : Z :=
  let '(lo, r, d) := neighbours k in
  match 2 * r ?= d with
  | Lt => lo
  | Gt => lo + 1
  | Eq => if Z.even lo then lo else lo + 1
  end.

Definition candidate (k : Z) : option Z :=
  let '(lo, _, _) := neighbours k in
  let q := decpt - k in
  match reads_back lo q, reads_back (lo + 1) q with
  | true, true => Some (nearest k)
  | true, false => Some lo
  | false, true => Some (lo + 1)
  | false, false => None
  end.

(** Seventeen digits always identify a binary64 value. *)
Fixpoint search (fuel : nat) (k : Z) : Z * Z :=
  match fuel with
  | O => (nearest 17, 17)
  | S fuel' =>
      match candidate k with
      | Some c => (c, k)
      | None => search fuel' (k + 1)
      end
  end.

Definition shortest : Z * Z := search 17 1.
End Shortest.

Fixpoint strip_zeros (s : string) : string :=
  match s with
  | String c rest =>
      match strip_zeros rest with
      | EmptyString => if Ascii.eqb c "0" then EmptyString else String c EmptyString
      | kept => String c kept
      end
  | EmptyString => EmptyString
  end.

Fixpoint zeros (n : nat) : string :=
  match n with O => EmptyString | S n' => String "0" (zeros n') end.

Definition strlen (s : string) : Z := Z.of_nat (String.length s).

(** Layout of [repr]: fixed notation while [-4 < decpt <= 16], else an
    exponent of at least two digits. *)
Definition layout (digits : string) (dp : Z) : string :=
  let n := strlen digits in
  if (-4 <? dp) && (dp <=? 16) then
    if dp <=? 0 then "0." ++ zeros (Z.to_nat (- dp)) ++ digits
    else if dp <? n then
      substring 0 (Z.to_nat dp) digits ++ "." ++
      substring (Z.to_nat dp) (Z.to_nat (n - dp)) digits
    else digits ++ zeros (Z.to_nat (dp - n)) ++ ".0"
  else
    let x := dp - 1 in
    let xs := PyStr.of_int (Z.abs x) in
    substring 0 1 digits ++
    (if 1 <? n then "." ++ substring 1 (Z.to_nat (n - 1)) digits else "") ++
    "e" ++ (if x <? 0 then "-" else "+") ++
    (if strlen xs <? 2 then "0" ++ xs else xs).

Definition repr_finite (m : positive) (e : Z) : string :=
  let '(c, k) := shortest m e in
  let ds := PyStr.of_int c in
  layout (match strip_zeros ds with EmptyString => "0" | kept => kept end)
         (decpt m e + (strlen ds - k)).

Definition repr_sf (x : spec_float) : string :=
  match x with
  | S754_nan => "nan"
  | S754_infinity s => if s then "-inf" else "inf"
  | S754_zero s => if s then "-0.0" else "0.0"
  | S754_finite s m e => (if s then "-" else "") ++ repr_finite m e
  end.

(** [repr(x)], which is also [format(x, '')] and so what [f"{x}"] renders. *)
Definition repr (x : float) : string := repr_sf (Prim2SF x).

(** ** [float(s)] *)

(** The white space [float] skips round a literal, on ASCII text: TAB..CR
    and the space.  FS..US, which [str.strip] removes, are not among them:
    [float] raises [ValueError] on them. *)
Definition is_space (c : ascii) : bool :=
  let n := PyStr.code c in
  ((9 <=? n) && (n <=? 13)) || (n =? 32).

Fixpoint lstrip (s : string) : string :=
  match s with
  | String c rest => if is_space c then lstrip rest else s
  | EmptyString => EmptyString
  end.

Fixpoint rstrip (s : string) : string :=
  match s with
  | String c rest =>
      match rstrip rest with
      | EmptyString => if is_space c then EmptyString else String c EmptyString
      | kept => String c kept
      end
  | EmptyString => EmptyString
  end.

(** The decimal digits of ASCII text. *)
Definition digit_val (c : ascii) : option Z :=
  let n := PyStr.code c in
  if (48 <=? n) && (n <=? 57) then Some (n - 48) else None.

(** [digit ("_"? digit)*]: the value accumulated on [acc], the number of
    digits read added to [count], and the unread rest. *)
Fixpoint digits (cs : list ascii) (acc count : Z) : Z * Z * list ascii :=
  match cs with
  | c :: rest =>
      match digit_val c with
      | Some d => digits rest (10 * acc + d) (count + 1)
      | None =>
          if Ascii.eqb c "_" && (0 <? count) then
            match rest with
            | c' :: rest' =>
                match digit_val c' with
                | Some d => digits rest' (10 * acc + d) (count + 1)
                | None => (acc, count, cs)
                end
            | [] => (acc, count, cs)
            end
          else (acc, count, cs)
      end
  | [] => (acc, count, [])
  end.

Definition sign_of (cs : list ascii) : bool * list ascii :=
  match cs with
  | c :: rest =>
      if Ascii.eqb c "-" then (true, rest)
      else if Ascii.eqb c "+" then (false, rest)
      else (false, cs)
  | [] => (false, [])
  end.

Definition lower (c : ascii) : ascii :=
  let n := PyStr.code c in
  if (65 <=? n) && (n <=? 90) then ascii_of_N (Z.to_N (n + 32)) else c.

Definition exponent (cs : list ascii) : option Z :=
  match cs with
  | [] => Some 0
  | c :: rest =>
      if Ascii.eqb (lower c) "e" then
        let '(neg, rest1) := sign_of rest in
        match digits rest1 0 0 with
        | (x, n, []) => if 0 <? n then Some (if neg then - x else x) else None
        | _ => None
        end
      else None
  end.

Definition number (neg : bool) (cs : list ascii) : option spec_float :=
  let '(ip, ni, rest) := digits cs 0 0 in
  let '(mant, nf, rest1) :=
    match rest with
    | c :: rest' => if Ascii.eqb c "." then digits rest' ip 0 else (ip, 0, rest)
    | [] => (ip, 0, rest)
    end in
  if 0 <? ni + nf then
    match exponent rest1 with
    | Some x => Some (sf_of_decimal neg mant (x - nf))
    | None => None
    end
  else None.

(** [float(s)]: [None] stands for the [ValueError] of a malformed literal. *)
Definition parse_sf (s : string) : option spec_float :=
  let '(neg, body) := sign_of (list_ascii_of_string (rstrip (lstrip s))) in
  let word := string_of_list_ascii (map lower body) in
  if String.eqb word "inf" || String.eqb word "infinity" then Some (S754_infinity neg)
  else if String.eqb word "nan" then Some S754_nan
  else number neg body.

Definition of_string (s : string) : option float :=
  match parse_sf s with
  | Some x => Some (SF2Prim x)
  | None => None
  end.

End PyFloat.

(* ===================================================================== *)
(** * [class Account] *)
(* ===================================================================== *)

Record Account := mkAccount {
  account_number : string;
  password : string;        (* the stored SHA-256 hex digest *)
  account_type : string;
  balance : float
}.

(** [Account.__init__(self, account_number, password, account_type, balance=0.0)]:
    whatever is passed as [password] is hashed before it is stored. *)
Definition Account_init (number pwd kind : string) (bal : float) : Account :=
  {| account_number := number;
     password := hash_password pwd;
     account_type := kind;
     balance := bal |}.

Definition set_balance (self : Account) (bal : float) : Account :=
  {| account_number := account_number self;
     password := password self;
     account_type := account_type self;
     balance := bal |}.

(** [Account.deposit]: [self.balance += amount]. *)
Definition deposit (self : Account) (amount : float) : Account :=
  set_balance self (balance self + amount)%float.

(** [Account.withdraw]: the object after the call and the returned [bool].
    [self.balance >= amount] is the float comparison [amount <= self.balance]. *)
Definition withdraw (self : Account) (amount : float) : Account * bool :=
  if (amount <=? balance self)%float
  then (set_balance self (balance self - amount)%float, true)
  else (self, false).

(** [Account.to_string] *)
Definition to_string (self : Account) : string :=
  account_number self ++ "," ++ password self ++ "," ++ account_type self ++ ","
    ++ PyFloat.repr (balance self) ++ PyStr.newline.

(* ===================================================================== *)
(** * The [accounts] dict: account number to object reference, insertion ordered *)
(* ===================================================================== *)

Definition ref := nat.

Module Dict.

Definition t := list (string * ref).

(** [d.get(k)]; [k in d] is [is_Some (get k d)]. *)
Fixpoint get (k : string) (d : t) : option ref :=
  match d with
  | [] => None
  | (k', v) :: rest => if String.eqb k' k then Some v else get k rest
  end.

Definition mem (k : string) (d : t) : bool :=
  match get k d with Some _ => true | None => false end.

(** [d[k] = v]: an existing key keeps its position, a new one goes last. *)
Fixpoint set (k : string) (v : ref) (d : t) : t :=
  match d with
  | [] => [(k, v)]
  | (k', v') :: rest =>
      if String.eqb k' k then (k', v) :: rest else (k', v') :: set k v rest
  end.

(** [del d[k]] *)
Fixpoint del (k : string) (d : t) : t :=
  match d with
  | [] => []
  | (k', v') :: rest =>
      if String.eqb k' k then rest else (k', v') :: del k rest
  end.

Definition keys (d : t) : list string := map fst d.
Definition refs (d : t) : list ref := map snd d.

End Dict.

(* ===================================================================== *)
(** * [class BankingApp] and its environment *)
(* ===================================================================== *)

(** The program state: the [Account] objects, the [accounts] dict of the one
    [BankingApp], the content of [accounts.txt] and the lines printed. *)
Record State := mkState {
  heap : list Account;
  accounts : Dict.t;
  disk : option string;
  stdout : list string
}.

(** [self.accounts.values()]: the objects the dict refers to, in dict order. *)
Definition values (st : State) : list Account :=
  omap (fun r => heap st !! r) (Dict.refs (accounts st)).

(** The [Account] stored under a number, [self.accounts[number]]. *)
Definition account_of (st : State) (number : string) : option Account :=
  match Dict.get number (accounts st) with
  | Some r => heap st !! r
  | None => None
  end.

Definition print (line : string) (st : State) : State :=
  {| heap := heap st; accounts := accounts st; disk := disk st;
     stdout := stdout st ++ [line] |}.

(** [BankingApp.save_accounts]: the whole file is rewritten. *)
Definition save_accounts (st : State) : State :=
  {| heap := heap st; accounts := accounts st;
     disk := Some (PyStr.concat (map to_string (values st)));
     stdout := stdout st |}.

(** One iteration of the loop of [load_accounts].  [None] is the
    [ValueError] of a line that does not unpack into four fields or whose
    balance is not a float literal. *)
Definition load_line (st : State) (line : string) : option State :=
  match PyStr.split "," (PyStr.strip line) with
  | [number; pwd; kind; bal] =>
      match PyFloat.of_string bal with
      | Some b =>
          Some {| heap := heap st ++ [Account_init number pwd kind b];
                  accounts := Dict.set number (length (heap st)) (accounts st);
                  disk := disk st; stdout := stdout st |}
      | None => None
      end
  | _ => None
  end.

Fixpoint load_lines (st : State) (lines : list string) : option State :=
  match lines with
  | [] => Some st
  | line :: rest =>
      match load_line st line with
      | Some st' => load_lines st' rest
      | None => None
      end
  end.

(** [BankingApp.load_accounts] *)
Definition load_accounts (st : State) : option State :=
  match disk st with
  | Some text => load_lines st (PyStr.readlines text)
  | None => Some st
  end.

(** [BankingApp()]: a fresh process with the given [accounts.txt]. *)
Definition BankingApp_init (file : option string) : option State :=
  load_accounts {| heap := []; accounts := []; disk := file; stdout := [] |}.

(** [BankingApp.create_account]; [n] and [p] are the two [random.randint] draws. *)
Definition create_account (st : State) (n p : Z) (kind : string) : State :=
  let number := PyStr.of_int n in
  let pwd := PyStr.of_int p in
  let st1 := {| heap := heap st ++ [Account_init number pwd kind 0%float];
                accounts := Dict.set number (length (heap st)) (accounts st);
                disk := disk st; stdout := stdout st |} in
  print ("Account created. Account Number: " ++ number ++ ", Password: " ++ pwd)
        (save_accounts st1).

(** [BankingApp.login]: the account object (its reference) or [None]. *)
Definition login (st : State) (number pwd : string) : option ref :=
  match Dict.get number (accounts st) with
  | Some r =>
      match heap st !! r with
      | Some account =>
          if String.eqb (password account) (hash_password pwd) then Some r else None
      | None => None
      end
  | None => None
  end.

(** [BankingApp.delete_account] *)
Definition delete_account (st : State) (number : string) : State * bool :=
  if Dict.mem number (accounts st)
  then (save_accounts {| heap := heap st; accounts := Dict.del number (accounts st);
                         disk := disk st; stdout := stdout st |}, true)
  else (st, false).

Definition set_heap (st : State) (h : list Account) : State :=
  {| heap := h; accounts := accounts st; disk := disk st; stdout := stdout st |}.

(** [BankingApp.transfer_money(from_account, to_account_number, amount)].
    [from_account] is an object reference; the outer [None] is a reference
    that names no object, which a reference returned by [login] never is.
    The recipient object is looked up before the withdrawal and mutated
    after it, in the same store: sender and recipient may be one object. *)
Definition transfer_money (st : State) (from_account : ref) (to_number : string)
    (amount : float) : option (State * bool) :=
  match heap st !! from_account with
  | None => None
  | Some sender =>
      match Dict.get to_number (accounts st) with
      | Some to_account =>
          let '(sender', ok) := withdraw sender amount in
          if ok then
            let h1 := <[from_account := sender']> (heap st) in
            match h1 !! to_account with
            | Some recipient =>
                let h2 := <[to_account := deposit recipient amount]> h1 in
                Some (save_accounts (set_heap st h2), true)
            | None => None
            end
          else Some (print "Insufficient funds." st, false)
      | None => Some (print "Receiving account does not exist." st, false)
      end
  end.

(* ===================================================================== *)
(** * [main]: the menu loop, one accepted request at a time *)
(* ===================================================================== *)

(** What the user can ask for.  Amounts are [float(input(...))], so any
    float, [nan] and the infinities included. *)
Inductive request :=
| Create (kind : string) (n p : Z)      (* outer menu, choice 1, with the two random draws *)
| Login (number pwd : string)           (* outer menu, choice 2 *)
| Deposit (amount : float)              (* session menu, action 1 *)
| Withdraw (amount : float)             (* session menu, action 2 *)
| Transfer (to_number : string) (amount : float)   (* action 3 *)
| Delete                                (* action 4 *)
| Logout.                               (* action 5 *)

(** The application state and the account object of the open session, if any. *)
Record Session := mkSession {
  app : State;
  current : option ref
}.

(** Session action 1: [account.deposit(amount); app.save_accounts(); print(...)]. *)
Definition menu_deposit (st : State) (r : ref) (amount : float) : option State :=
  match heap st !! r with
  | Some account =>
      let account' := deposit account amount in
      Some (print ("Deposited " ++ PyFloat.repr amount ++ ". New balance: "
                     ++ PyFloat.repr (balance account'))
                  (save_accounts (set_heap st (<[r := account']> (heap st)))))
  | None => None
  end.

(** Session action 2: the file is rewritten only when the withdrawal succeeds. *)
Definition menu_withdraw (st : State) (r : ref) (amount : float) : option (State * bool) :=
  match heap st !! r with
  | Some account =>
      let '(account', ok) := withdraw account amount in
      if ok then
        Some (print ("Withdrew " ++ PyFloat.repr amount ++ ". New balance: "
                       ++ PyFloat.repr (balance account'))
                    (save_accounts (set_heap st (<[r := account']> (heap st)))), true)
      else Some (print "Insufficient funds." st, false)
  | None => None
  end.

(** One round of the loops of [main].  A request the current menu does not
    offer, or a session whose reference names no object, leaves the session
    as it is. *)
Definition main_step (s : Session) (rq : request) : Session :=
  match current s, rq with
  | None, Create kind n p => mkSession (create_account (app s) n p kind) None
  | None, Login number pwd =>
      match login (app s) number pwd with
      | Some r =>
          match heap (app s) !! r with
          | Some account =>
              mkSession (print ("Logged in as " ++ number ++ ". Balance: "
                                  ++ PyFloat.repr (balance account)) (app s))
                        (Some r)
          | None => s
          end
      | None => mkSession (print "Invalid login credentials." (app s)) None
      end
  | Some r, Deposit amount =>
      match menu_deposit (app s) r amount with
      | Some st' => mkSession st' (Some r)
      | None => s
      end
  | Some r, Withdraw amount =>
      match menu_withdraw (app s) r amount with
      | Some (st', _) => mkSession st' (Some r)
      | None => s
      end
  | Some r, Transfer to_number amount =>
      match transfer_money (app s) r to_number amount with
      | Some (st', ok) =>
          if ok then
            match heap st' !! r with
            | Some account =>
                mkSession (print ("Transferred " ++ PyFloat.repr amount ++ " to "
                                    ++ to_number ++ ". New balance: "
                                    ++ PyFloat.repr (balance account)) st')
                          (Some r)
            | None => s
            end
          else mkSession st' (Some r)
      | None => s
      end
  | Some r, Delete =>
      match heap (app s) !! r with
      | Some account =>
          let '(st', ok) := delete_account (app s) (account_number account) in
          if ok then mkSession (print "Account deleted successfully." st') None
          else mkSession (print "Failed to delete account." st') (Some r)
      | None => s
      end
  | Some _, Logout => mkSession (app s) None
  | _, _ => s
  end.

Definition run (s : Session) (rqs : list request) : Session :=
  fold_left main_step rqs s.

(** The program at start-up, [app = BankingApp()], nobody logged in. *)
Definition start (file : option string) : option Session :=
  match BankingApp_init file with
  | Some st => Some (mkSession st None)
  | None => None
  end.

(** ** Predicates used by the statements *)

(** [x >= y] on floats, as a proposition. *)
Definition fge (x y : float) : Prop := (y <=? x)%float = true.

(** Every [Account] object of a store has a balance [>= 0]. *)
Definition heap_nonneg (h : list Account) : Prop :=
  forall r account, h !! r = Some account -> fge (balance account) 0.

Definition balances_nonneg (st : State) : Prop := heap_nonneg (heap st).

(** The amounts under which the balance invariant is kept: nothing negative
    is credited and [inf] is never debited. *)
Definition amount_ok (rq : request) : bool :=
  match rq with
  | Deposit amount => (0 <=? amount)%float
  | Withdraw amount => (amount <? infinity)%float
  | Transfer _ amount => (0 <=? amount)%float && (amount <? infinity)%float
  | _ => true
  end.

(** ** Classification of binary64 values, for the arithmetic facts *)

(** The sign carried by a value that is not [nan]. *)
Definition sf_signed (s : bool) (x : spec_float) : Prop :=
  match x with
  | S754_zero s' | S754_infinity s' | S754_finite s' _ _ => s' = s
  | S754_nan => False
  end.

(** [0 <= x]: a zero of either sign, or a positive finite or infinite value. *)
Definition sf_nonneg (x : spec_float) : Prop :=
  match x with
  | S754_zero _ => True
  | S754_infinity s | S754_finite s _ _ => s = false
  | S754_nan => False
  end.

(** ** Fields the file format can carry *)

Fixpoint no_comma (s : string) : bool :=
  match s with
  | String c rest => negb (Ascii.eqb c ",") && no_comma rest
  | EmptyString => true
  end.

Definition no_leading_space (s : string) : bool :=
  match s with
  | String c _ => negb (PyStr.is_space c)
  | EmptyString => true
  end.

(** A field list the file format can carry: no comma in a field, no white
    space before the number, and a balance text that is not empty, has no
    white space at its end and reads back as the balance. *)
Definition storable (a : Account) : Prop :=
  no_leading_space (account_number a) = true
  /\ no_comma (account_number a) = true
  /\ no_comma (password a) = true
  /\ no_comma (account_type a) = true
  /\ no_comma (PyFloat.repr (balance a)) = true
  /\ PyFloat.repr (balance a) <> ""
  /\ PyStr.rstrip (PyFloat.repr (balance a)) = PyFloat.repr (balance a)
  /\ PyFloat.of_string (PyFloat.repr (balance a)) = Some (balance a).

(** ** Character classes of the fields *)

(** Every character of a string satisfies [p]. *)
Fixpoint all_chars (p : ascii -> bool) (s : string) : bool :=
  match s with
  | String c rest => p c && all_chars p rest
  | EmptyString => true
  end.

(** The characters of a lower-case hexadecimal numeral. *)
Definition hex_char (c : ascii) : bool :=
  let n := PyStr.code c in
  ((48 <=? n) && (n <=? 57)) || ((97 <=? n) && (n <=? 102)).

(** The characters [str(n)] is made of: the digits and the minus sign. *)
Definition int_char (c : ascii) : bool :=
  let n := PyStr.code c in
  ((48 <=? n) && (n <=? 57)) || (n =? 45).

(** Neither a field separator, nor white space, nor a line end. *)
Definition plain_char (c : ascii) : bool :=
  negb (Ascii.eqb c ",") && negb (PyStr.is_space c).

Definition plain (s : string) : bool := all_chars plain_char s.

(** The characters [repr] of a float is made of. *)
Definition float_char (c : ascii) : bool :=
  int_char c || (Ascii.eqb c "." || Ascii.eqb c "e" || Ascii.eqb c "+"
                 || Ascii.eqb c "i" || Ascii.eqb c "n" || Ascii.eqb c "f"
                 || Ascii.eqb c "a").

(** ASCII text: every character has a code below 128. *)
Definition ascii_char (c : ascii) : bool := PyStr.code c <? 128.

Definition ascii_text (s : string) : bool := all_chars ascii_char s.

(** Not a line end. *)
Definition line_char (c : ascii) : bool :=
  negb (Ascii.eqb c PyStr.LF) && negb (Ascii.eqb c PyStr.CR).

Definition one_line (s : string) : bool := all_chars line_char s.

(** An account whose record survives the file: the fields hold no comma and
    no line end, the number has no white space in front, and the text of
    the balance reads back as the balance. *)
Definition savable (a : Account) : Prop :=
  no_leading_space (account_number a) = true
  /\ no_comma (account_number a) = true
  /\ no_comma (password a) = true
  /\ no_comma (account_type a) = true
  /\ one_line (account_number a) = true
  /\ one_line (password a) = true
  /\ one_line (account_type a) = true
  /\ PyFloat.of_string (PyFloat.repr (balance a)) = Some (balance a).

(** An [accounts.txt], if there is one, of ASCII text. *)
Definition ascii_file (file : option string) : bool :=
  match file with
  | Some text => ascii_text text
  | None => true
  end.

(** An account whose number, digest and kind are ASCII text. *)
Definition ascii_account (a : Account) : Prop :=
  ascii_text (account_number a) = true
  /\ ascii_text (password a) = true
  /\ ascii_text (account_type a) = true.

(** The account [load_accounts] builds from the record of [a]. *)
Definition reloaded (a : Account) : Account :=
  Account_init (account_number a) (password a) (account_type a) (balance a).

(** [self.accounts[a.account_number] = a] for a new object [a]. *)
Definition register (st : State) (a : Account) : State :=
  {| heap := heap st ++ [a];
     accounts := Dict.set (account_number a) (length (heap st)) (accounts st);
     disk := disk st; stdout := stdout st |}.

(** The record of an account without its line end. *)
Definition record_body (a : Account) : string :=
  account_number a ++ "," ++ password a ++ "," ++ account_type a ++ ","
    ++ PyFloat.repr (balance a).

(** ** Consistency of the ledger *)

(** The dict holds each key once, and every key names an object that
    carries it as its account number. *)
Definition ledger_ok (st : State) : Prop :=
  List.NoDup (Dict.keys (accounts st))
  /\ forall k r, Dict.get k (accounts st) = Some r ->
       exists a, heap st !! r = Some a /\ account_number a = k.

(** The reference [r] names an account that the dict holds under its number. *)
Definition handle_ok (st : State) (r : ref) : Prop :=
  exists a, heap st !! r = Some a
            /\ Dict.get (account_number a) (accounts st) = Some r.

(** A consistent ledger, and a session account that is in it. *)
Definition session_ok (s : Session) : Prop :=
  ledger_ok (app s) /\ forall r, current s = Some r -> handle_ok (app s) r.

(** The file holds exactly the records of the accounts of the dict; before
    the first save there is no file and no account. *)
Definition file_current (st : State) : Prop :=
  disk st = Some (PyStr.concat (map to_string (values st)))
  \/ (disk st = None /\ accounts st = []).

(** Every object of a store satisfies [P]. *)
Definition heap_all (P : Account -> Prop) (h : list Account) : Prop :=
  forall r a, h !! r = Some a -> P a.

(** The commas of a string. *)
Fixpoint count_commas (s : string) : nat :=
  match s with
  | String c rest => (if Ascii.eqb c "," then 1 else 0) + count_commas rest
  | EmptyString => 0
  end.

(** ** Sample states and runs *)

(** Two accounts with the given balances. *)
Definition two_accounts (a b : float) : State :=
  {| heap := [mkAccount "100001" (hash_password "1111") "savings" a;
              mkAccount "100002" (hash_password "2222") "current" b];
     accounts := [("100001", 0%nat); ("100002", 1%nat)];
     disk := None; stdout := [] |}.

(** The program just started without [accounts.txt]. *)
Definition fresh_session : Session := mkSession (mkState [] [] None []) None.

(** The account [create_account] makes for the draws 123456 and 1234. *)
Definition sample_account : Account := Account_init "123456" "1234" "savings" 0.

(** An [accounts.txt] of two records: the first as [save_accounts] writes
    it, the second edited by hand, with white space round the line and
    round the balance. *)
Definition sample_file : string :=
  "100001," ++ hash_password "1111" ++ ",savings,50.0" ++ PyStr.newline
  ++ "  100002," ++ hash_password "2222" ++ ",current, 1_0e-1 " ++ PyStr.newline.

(** The program started on [sample_file] (a fresh start if it did not load). *)
Definition loaded_session : Session :=
  match start (Some sample_file) with
  | Some s => s
  | None => fresh_session
  end.

(** The second record of [sample_file] as [load_accounts] reads it. *)
Definition loaded_account : Account :=
  mkAccount "100002" (hash_password (hash_password "2222")) "current" 1.

Definition sample_requests : list request :=
  [Create "savings" 123456 1234; Login "123456" "1234";
   Deposit 100; Withdraw 30; Transfer "123456" 5; Withdraw (-2)%float; Logout].

(* ===================================================================== *)
(** * Basic facts about the dict, the object store and the file writer *)
(* ===================================================================== *)

Module DictFacts.

Lemma get_set_eq k v d : Dict.get k (Dict.set k v d) = Some v.
Proof.
  induction d as [|[k' v'] d IH]; simpl.
  - now rewrite String.eqb_refl.
  - destruct (String.eqb k' k) eqn:E; simpl; rewrite E; auto.
Qed.

Lemma get_set_ne k k' v d :
  k <> k' -> Dict.get k' (Dict.set k v d) = Dict.get k' d.
Proof.
  intros Hne. induction d as [|[k0 v0] d IH]; simpl.
  - destruct (String.eqb k k') eqn:E; auto.
    apply String.eqb_eq in E. contradiction.
  - destruct (String.eqb k0 k) eqn:E; simpl.
    + apply String.eqb_eq in E. subst k0.
      destruct (String.eqb k k') eqn:E'; auto.
      apply String.eqb_eq in E'. contradiction.
    + now rewrite IH.
Qed.

(** Assigning to a key that is present replaces in place: no entry is added. *)
Lemma keys_set_present k v d :
  Dict.mem k d = true -> Dict.keys (Dict.set k v d) = Dict.keys d.
Proof.
  unfold Dict.mem, Dict.keys. induction d as [|[k0 v0] d IH]; simpl.
  - discriminate.
  - destruct (String.eqb k0 k) eqn:E; simpl; auto.
    intros H. now rewrite IH.
Qed.

Lemma keys_set_absent k v d :
  Dict.mem k d = false -> Dict.keys (Dict.set k v d) = (Dict.keys d ++ [k])%list.
Proof.
  unfold Dict.mem, Dict.keys. induction d as [|[k0 v0] d IH]; simpl; auto.
  destruct (String.eqb k0 k) eqn:E; simpl.
  - discriminate.
  - intros H. now rewrite IH.
Qed.

Lemma mem_get k d r : Dict.get k d = Some r -> Dict.mem k d = true.
Proof. unfold Dict.mem. now intros ->. Qed.

End DictFacts.

Module StrFacts.

Lemma split_field a rest :
  no_comma a = true ->
  PyStr.split "," (a ++ String "," rest) = a :: PyStr.split "," rest.
Proof.
  induction a as [|c a IH]; simpl; intros H.
  - reflexivity.
  - apply andb_true_iff in H as [Hc Ha]. apply negb_true_iff in Hc.
    rewrite Hc, IH by assumption. reflexivity.
Qed.

Lemma split_last a : no_comma a = true -> PyStr.split "," a = [a].
Proof.
  induction a as [|c a IH]; simpl; intros H.
  - reflexivity.
  - apply andb_true_iff in H as [Hc Ha]. apply negb_true_iff in Hc.
    rewrite Hc, IH by assumption. reflexivity.
Qed.

Lemma lstrip_field a rest :
  no_leading_space a = true ->
  PyStr.lstrip (a ++ String "," rest) = a ++ String "," rest.
Proof.
  destruct a as [|c a]; simpl; intros H.
  - reflexivity.
  - apply negb_true_iff in H. now rewrite H.
Qed.

Lemma rstrip_space b c :
  PyStr.is_space c = true -> PyStr.rstrip (b ++ String c "") = PyStr.rstrip b.
Proof.
  intros Hc. induction b as [|c' b IH]; simpl.
  - now rewrite Hc.
  - now rewrite IH.
Qed.

Lemma rstrip_cons c t :
  PyStr.rstrip t <> "" -> PyStr.rstrip (String c t) = String c (PyStr.rstrip t).
Proof. simpl. destruct (PyStr.rstrip t); congruence. Qed.

Lemma rstrip_app s t :
  PyStr.rstrip t <> "" -> PyStr.rstrip (s ++ t) = s ++ PyStr.rstrip t.
Proof.
  intros Ht. induction s as [|c s IH]; simpl; auto.
  rewrite IH. destruct (s ++ PyStr.rstrip t) eqn:E; auto.
  destruct s; simpl in E; congruence.
Qed.

End StrFacts.

Section StateFacts.
Implicit Types (st : State) (account : Account).

Lemma heap_print line st : heap (print line st) = heap st.
Proof. reflexivity. Qed.

Lemma heap_save st : heap (save_accounts st) = heap st.
Proof. reflexivity. Qed.

Lemma accounts_save st : accounts (save_accounts st) = accounts st.
Proof. reflexivity. Qed.

Lemma withdraw_true account amount :
  fge (balance account) amount ->
  withdraw account amount
  = (set_balance account (balance account - amount)%float, true).
Proof. unfold fge, withdraw. now intros ->. Qed.

Lemma withdraw_false account amount :
  ~ fge (balance account) amount -> withdraw account amount = (account, false).
Proof.
  unfold fge, withdraw. destruct (amount <=? balance account)%float; auto.
  intros H. now destruct H.
Qed.

(** A transfer that goes through: the sender object is debited, then the
    recipient object, read from the updated store, is credited. *)
Lemma transfer_money_success st from_account to_number to_account sender recipient amount :
  heap st !! from_account = Some sender ->
  Dict.get to_number (accounts st) = Some to_account ->
  fge (balance sender) amount ->
  <[from_account := set_balance sender (balance sender - amount)%float]> (heap st)
    !! to_account = Some recipient ->
  transfer_money st from_account to_number amount
  = Some (save_accounts (set_heap st
            (<[to_account := deposit recipient amount]>
               (<[from_account := set_balance sender (balance sender - amount)%float]>
                  (heap st)))), true).
Proof.
  intros Hs Ht Hge Hr. unfold transfer_money.
  rewrite Hs, Ht, (withdraw_true _ _ Hge). simpl. now rewrite Hr.
Qed.

End StateFacts.

(* ===================================================================== *)
(** * Facts about binary64 arithmetic, through the specification of the
      primitive operations *)
(* ===================================================================== *)

Module FloatFacts.

Lemma sf_nonneg_leb x : SFleb (S754_zero false) x = true <-> sf_nonneg x.
Proof.
  destruct x as [s|s| |s m e]; simpl; unfold SFleb; simpl;
    try destruct s; simpl; intuition congruence.
Qed.

Lemma sf_signed_nonneg x : sf_signed false x -> sf_nonneg x.
Proof. destruct x; simpl; auto. Qed.

Section Rounding.

Lemma iter_pos_preserves {A} (P : A -> Prop) (f : A -> A) :
  (forall x, P x -> P (f x)) -> forall p x, P x -> P (SpecFloat.iter_pos f p x).
Proof.
  intros Hf. induction p as [p IH|p IH|]; simpl; intros x Hx; auto.
Qed.

Lemma shr_1_nonneg mrs : 0 <= shr_m mrs -> 0 <= shr_m (shr_1 mrs).
Proof.
  destruct mrs as [m r s]. simpl.
  destruct m as [|[p|p|]|[p|p|]]; simpl; lia.
Qed.

Lemma shr_nonneg mrs e n : 0 <= shr_m mrs -> 0 <= shr_m (fst (shr mrs e n)).
Proof.
  intros H. destruct n; simpl; auto.
  apply (iter_pos_preserves (fun x => 0 <= shr_m x)); auto using shr_1_nonneg.
Qed.

Lemma shr_record_of_loc_m m l : shr_m (shr_record_of_loc m l) = m.
Proof. destruct l as [|[]]; reflexivity. Qed.

Lemma shr_fexp_nonneg m e l :
  0 <= m -> 0 <= shr_m (fst (shr_fexp prec emax m e l)).
Proof.
  intros H. unfold shr_fexp. apply shr_nonneg. now rewrite shr_record_of_loc_m.
Qed.

Lemma round_nearest_even_nonneg m l : 0 <= m -> 0 <= round_nearest_even m l.
Proof.
  intros H. destruct l as [|[]]; simpl; try lia.
  destruct (Z.even m); lia.
Qed.

(** Rounding never turns a non-negative mantissa into [nan] and keeps the sign. *)
Lemma binary_round_aux_signed s m e l :
  0 <= m -> sf_signed s (binary_round_aux prec emax s m e l).
Proof.
  intros H. unfold binary_round_aux.
  pose proof (shr_fexp_nonneg m e l H) as H1.
  destruct (shr_fexp prec emax m e l) as [mrs' e']. simpl in H1.
  pose proof (shr_fexp_nonneg _ e' loc_Exact
                (round_nearest_even_nonneg _ (loc_of_shr_record mrs') H1)) as H2.
  destruct (shr_fexp prec emax _ e' loc_Exact) as [mrs'' e'']. simpl in H2.
  destruct (shr_m mrs'') as [|p|p]; simpl; auto; try lia.
  destruct (_ <=? _); simpl; auto.
Qed.

Lemma binary_round_signed s m e : sf_signed s (binary_round prec emax s m e).
Proof.
  unfold binary_round.
  destruct (shl_align m e _) as [mz ez].
  apply binary_round_aux_signed. lia.
Qed.

Lemma binary_normalize_nonneg m e :
  0 <= m -> sf_nonneg (binary_normalize prec emax m e false).
Proof.
  intros H. destruct m as [|p|p]; simpl; auto.
  - apply sf_signed_nonneg, binary_round_signed.
  - lia.
Qed.

End Rounding.

Section Magnitude.

Lemma digits2_pos_bounds m :
  2 ^ (Zpos (digits2_pos m) - 1) <= Zpos m < 2 ^ Zpos (digits2_pos m).
Proof.
  induction m as [p IH|p IH|]; simpl digits2_pos.
  - rewrite Pos2Z.inj_succ.
    replace (Z.succ (Zpos (digits2_pos p)) - 1) with (Z.succ (Zpos (digits2_pos p) - 1)) by lia.
    rewrite !Z.pow_succ_r by lia. lia.
  - rewrite Pos2Z.inj_succ.
    replace (Z.succ (Zpos (digits2_pos p)) - 1) with (Z.succ (Zpos (digits2_pos p) - 1)) by lia.
    rewrite !Z.pow_succ_r by lia. lia.
  - simpl. lia.
Qed.

Lemma iter_xO m d : Zpos (Pos.iter xO m d) = Zpos m * 2 ^ Zpos d.
Proof.
  induction d as [|d IH] using Pos.peano_ind.
  - simpl. lia.
  - rewrite Pos.iter_succ, Pos2Z.inj_succ, Z.pow_succ_r by lia.
    rewrite Pos2Z.inj_xO, IH. lia.
Qed.

Lemma shl_align_fst m e e' :
  e' <= e -> Zpos (fst (shl_align m e e')) = Zpos m * 2 ^ (e - e').
Proof.
  intros H. unfold shl_align.
  destruct (e' - e) as [|d|d] eqn:E.
  - replace (e - e') with 0 by lia. simpl. lia.
  - lia.
  - replace (e - e') with (Zpos d) by lia. apply iter_xO.
Qed.

(** A larger exponent means a larger value, for the mantissas the format admits. *)
Lemma bounded_exponent_lt m1 e1 m2 e2 :
  bounded prec emax m1 e1 = true -> bounded prec emax m2 e2 = true ->
  e2 < e1 -> Zpos m2 < Zpos m1 * 2 ^ (e1 - e2).
Proof.
  unfold bounded, canonical_mantissa, fexp, emin.
  intros H1 H2 Hlt.
  apply andb_true_iff in H1 as [H1 _]. apply andb_true_iff in H2 as [H2 _].
  apply Z.eqb_eq in H1, H2.
  pose proof (digits2_pos_bounds m1) as [L1 _].
  pose proof (digits2_pos_bounds m2) as [_ U2].
  assert (D1 : Zpos (digits2_pos m1) = prec) by lia.
  assert (D2 : Zpos (digits2_pos m2) <= prec) by lia.
  rewrite D1 in L1.
  assert (P2 : 2 ^ Zpos (digits2_pos m2) <= 2 ^ prec)
    by (apply Z.pow_le_mono_r; lia).
  assert (P1 : 2 ^ 1 <= 2 ^ (e1 - e2)) by (apply Z.pow_le_mono_r; lia).
  replace (2 ^ prec) with (2 ^ (prec - 1) * 2 ^ 1) in P2 by reflexivity.
  change (2 ^ 1) with 2 in *.
  nia.
Qed.

End Magnitude.

Section Operations.

Lemma SFadd_nonneg x y :
  sf_nonneg x -> sf_nonneg y -> sf_nonneg (SFadd prec emax x y).
Proof.
  destruct x as [sx|sx| |sx mx ex], y as [sy|sy| |sy my ey]; simpl;
    try tauto; try congruence.
  - destruct sx, sy; simpl; auto.
  - intros -> ->. reflexivity.
  - intros -> ->. apply binary_normalize_nonneg. simpl. lia.
Qed.

(** [x - y] for [0 <= x], [y <= x] and [y < inf]: the one way to [nan],
    [inf - inf], is excluded, and the exact difference is not negative. *)
Lemma SFsub_nonneg x y :
  valid_binary x = true -> valid_binary y = true ->
  sf_nonneg x -> SFleb y x = true -> SFltb y (S754_infinity false) = true ->
  sf_nonneg (SFsub prec emax x y).
Proof.
  intros Vx Vy.
  destruct x as [sx|sx| |sx mx ex], y as [sy|sy| |sy my ey];
    unfold SFleb, SFltb; simpl; try tauto; try congruence.
  1-5: (intros; destruct sx, sy; simpl in *; auto; congruence).
  intros -> H _. destruct sy.
    + apply binary_normalize_nonneg. unfold cond_Zopp. lia.
    + apply binary_normalize_nonneg. simpl in Vx, Vy.
      assert (Hc : ey < ex \/ (ey = ex /\ Zpos my <= Zpos mx)).
      { destruct (Z.compare_spec ey ex) as [E|E|E]; try discriminate; auto.
        right. split; auto. rewrite Pos.compare_cont_spec in H. simpl in H.
        destruct (Pos.compare_spec my mx); try discriminate; subst; lia. }
      unfold cond_Zopp. destruct Hc as [Hlt|[-> Hle]].
      * rewrite Z.min_r by lia.
        rewrite !shl_align_fst by lia.
        pose proof (bounded_exponent_lt mx ex my ey Vx Vy Hlt).
        rewrite Z.sub_diag. simpl (2 ^ 0). lia.
      * rewrite Z.min_id, !shl_align_fst by lia.
        rewrite Z.sub_diag. simpl (2 ^ 0). lia.
Qed.

(** Subtracting a negative value is adding its absolute value. *)
Lemma SFsub_negative x y :
  SFltb y (S754_zero false) = true ->
  SFsub prec emax x y = SFadd prec emax x (SFabs y).
Proof.
  unfold SFltb.
  destruct x as [sx|sx| |sx mx ex], y as [sy|sy| |sy my ey]; simpl;
    try discriminate; try reflexivity;
    destruct sy; try discriminate; intros _; try reflexivity.
Qed.

End Operations.

Section Primitive.
Local Open Scope float_scope.

Lemma Prim2SF_zero : Prim2SF 0 = S754_zero false.
Proof. reflexivity. Qed.

Lemma Prim2SF_infinity : Prim2SF infinity = S754_infinity false.
Proof. reflexivity. Qed.

Lemma leb_zero_nonneg x : (0 <=? x) = true <-> sf_nonneg (Prim2SF x).
Proof. rewrite leb_spec, Prim2SF_zero. apply sf_nonneg_leb. Qed.

Lemma add_nonneg x y :
  (0 <=? x) = true -> (0 <=? y) = true -> (0 <=? x + y) = true.
Proof.
  rewrite !leb_zero_nonneg, add_spec. apply SFadd_nonneg.
Qed.

Lemma sub_nonneg x y :
  (0 <=? x) = true -> (y <=? x) = true -> (y <? infinity) = true ->
  (0 <=? x - y) = true.
Proof.
  rewrite !leb_zero_nonneg, leb_spec, ltb_spec, sub_spec, Prim2SF_infinity.
  apply SFsub_nonneg; apply Prim2SF_valid.
Qed.

Lemma sub_negative x y : (y <? 0) = true -> x - y = x + abs y.
Proof.
  rewrite ltb_spec, Prim2SF_zero. intros H.
  apply Prim2SF_inj. rewrite sub_spec, add_spec, abs_spec.
  now apply SFsub_negative.
Qed.

End Primitive.

End FloatFacts.

(* ===================================================================== *)
(** * Test vectors for the library models *)
(* ===================================================================== *)

Example hash_password_empty :
  hash_password "" = "e3b0c44298fc1c149afbf4c8996fb92427ae41e4649b934ca495991b7852b855".
Proof. vm_compute. reflexivity. Qed.

Example hash_password_abc :
  hash_password "abc" = "ba7816bf8f01cfea414140de5dae2223b00361a396177a9cb410ff61f20015ad".
Proof. vm_compute. reflexivity. Qed.

Example hash_password_1234 :
  hash_password "1234" = "03ac674216f3e15c761ee1a5e255f067953623c8b388b4459e13f978d7c846f4".
Proof. vm_compute. reflexivity. Qed.

Example hash_password_two_blocks :
  hash_password "03ac674216f3e15c761ee1a5e255f067953623c8b388b4459e13f978d7c846f4"
  = "756bc47cb5215dc3329ca7e1f7be33a2dad68990bb94b76d90aa07f4e44a233a".
Proof. vm_compute. reflexivity. Qed.

Example repr_samples :
  map PyFloat.repr [0; 100; 20; 0x1.3333333333334p-2; 0x1.c6bf52634p+49;
                    0x1.4f8b588e368f1p-17; 0x1p-1074; neg_zero; infinity; nan]%float
  = ["0.0"; "100.0"; "20.0"; "0.30000000000000004"; "1000000000000000.0";
     "1e-05"; "5e-324"; "-0.0"; "inf"; "nan"].
Proof. vm_compute. reflexivity. Qed.

Example float_samples :
  map PyFloat.parse_sf ["0.0"; " 1_000.5e-1 "; "-Infinity"; "1e"; "."; "1__0"; ""]
  = [Some (S754_zero false); Some (Prim2SF 0x1.9033333333333p+6);
     Some (S754_infinity true); None; None; None; None].
Proof. vm_compute. reflexivity. Qed.

(** [float] skips TAB..CR and the space round a literal, not FS..US. *)
Example float_white_space :
  map PyFloat.of_string
    [String (ascii_of_N 9) "5.0" ++ String (ascii_of_N 12) " ";
     String (ascii_of_N 28) "5.0"; "5.0" ++ String (ascii_of_N 31) ""]
  = [Some 5%float; None; None].
Proof. vm_compute. reflexivity. Qed.

Set Warnings "-inexact-float".

(* ===================================================================== *)
(** * Withdrawals *)
(* ===================================================================== *)

(** C4: [withdraw(amount)] returns [True] exactly when [balance >= amount];
    the balance of the account is then [balance - amount] (the float
    difference) and number, digest and kind are as before; otherwise the
    account, its balance included, is unchanged and [False] is returned. *)
Theorem withdraw_all_or_nothing (self : Account) (amount : float) :
  (snd (withdraw self amount) = true <-> fge (balance self) amount)
  /\ (fge (balance self) amount ->
      balance (fst (withdraw self amount)) = (balance self - amount)%float
      /\ fst (withdraw self amount)
         = mkAccount (account_number self) (password self) (account_type self)
                     (balance self - amount)%float)
  /\ (~ fge (balance self) amount ->
      balance (fst (withdraw self amount)) = balance self
      /\ withdraw self amount = (self, false)).
Proof.
  unfold fge, withdraw, set_balance.
  destruct (amount <=? balance self)%float; cbn [fst snd balance].
  - split; [tauto|]. split; [auto | intros H; now destruct H].
  - split; [split; [discriminate | intros H; exact H]|].
    split; [discriminate | auto].
Qed.

(** 50.0 less 30.0 leaves 20.0; 80.0 is refused and 50.0 stays. *)
Lemma withdraw_all_or_nothing_witness :
  let account := mkAccount "123456" (hash_password "1234") "savings" 50 in
  (balance (fst (withdraw account 30)) = 20%float
   /\ withdraw account 30
      = (mkAccount "123456" (hash_password "1234") "savings" 20, true))
  /\ (balance (fst (withdraw account 80)) = 50%float
      /\ withdraw account 80 = (account, false)).
Proof.
  intros account.
  destruct (withdraw_all_or_nothing account 30) as (Hok & Hdone & _).
  destruct (withdraw_all_or_nothing account 80) as (_ & _ & Hrefused).
  split.
  - destruct (Hdone eq_refl) as [Hbal Hobj]. split; [exact Hbal|].
    rewrite (surjective_pairing (withdraw account 30)), Hobj.
    now rewrite (proj2 Hok eq_refl).
  - apply Hrefused. discriminate.
Defined.

(** A negative balance of -10 and the negative amount -5: the test
    [balance >= amount] fails and nothing is withdrawn. *)
Lemma withdraw_negative_amount_refused :
  let account := mkAccount "123456" (hash_password "1234") "savings" (-10)%float in
  (-5 <? 0)%float = true /\ withdraw account (-5)%float = (account, false).
Proof. split; reflexivity. Qed.

Lemma nonneg_ge_negative (b amount : float) :
  fge b 0 -> (amount <? 0)%float = true -> fge b amount.
Proof.
  unfold fge. rewrite !leb_spec, ltb_spec, FloatFacts.Prim2SF_zero.
  unfold SFleb, SFltb.
  destruct (Prim2SF b) as [sb|sb| |sb mb eb], (Prim2SF amount) as [sa|sa| |sa ma ea];
    simpl; try discriminate; try reflexivity;
    destruct sa, sb; simpl; try discriminate; reflexivity.
Qed.

(** C7 (amended): for a strictly negative amount and an account whose balance
    is not negative, or more generally is [>= amount], [withdraw] returns [True]
    and the balance becomes [balance - amount], which is [balance + |amount|]. *)
Theorem withdraw_negative_amount_credits (self : Account) (amount : float) :
  (amount <? 0)%float = true ->
  fge (balance self) 0 \/ fge (balance self) amount ->
  withdraw self amount
  = (mkAccount (account_number self) (password self) (account_type self)
               (balance self - amount)%float, true)
  /\ balance (fst (withdraw self amount)) = (balance self - amount)%float
  /\ balance (fst (withdraw self amount)) = (balance self + abs amount)%float.
Proof.
  intros Hneg Hbal.
  assert (Hge : fge (balance self) amount)
    by (destruct Hbal; auto using nonneg_ge_negative).
  rewrite (withdraw_true _ _ Hge). unfold set_balance. cbn [fst balance].
  split; [reflexivity|]. split; [reflexivity|].
  now apply FloatFacts.sub_negative.
Qed.

(** A balance of 10.0 and a withdrawal of -5.0: [True], and 15.0 is left. *)
Lemma withdraw_negative_amount_credits_witness :
  let account := mkAccount "123456" (hash_password "1234") "savings" 10%float in
  withdraw account (-5)%float
  = (mkAccount "123456" (hash_password "1234") "savings" 15%float, true)
  /\ balance (fst (withdraw account (-5)%float)) = 15%float
  /\ balance (fst (withdraw account (-5)%float)) = (10 + 5)%float.
Proof.
  intros account.
  exact (withdraw_negative_amount_credits account (-5)%float
           eq_refl (or_introl eq_refl)).
Defined.

(* ===================================================================== *)
(** * Transfers *)
(* ===================================================================== *)

(** C5: a transfer to a number that is not in the dict, or of more than the
    sender holds, returns [False]; no object, hence no balance, changes, the
    dict is the same and the file is not rewritten. *)
Theorem transfer_money_failure (st : State) (from_account : ref)
    (to_number : string) (amount : float) (sender : Account) :
  heap st !! from_account = Some sender ->
  Dict.get to_number (accounts st) = None \/ ~ fge (balance sender) amount ->
  exists st',
    transfer_money st from_account to_number amount = Some (st', false)
    /\ heap st' = heap st /\ accounts st' = accounts st /\ disk st' = disk st.
Proof.
  intros Hs Hfail. unfold transfer_money. rewrite Hs.
  destruct (Dict.get to_number (accounts st)) as [to_account|] eqn:Ht.
  - destruct Hfail as [|Hlow]; [discriminate|].
    rewrite (withdraw_false _ _ Hlow). eauto.
  - eauto.
Qed.

Lemma transfer_money_failure_witness :
  exists st',
    transfer_money (two_accounts 10 0) 0%nat "100002" 50 = Some (st', false)
    /\ heap st' = heap (two_accounts 10 0)
    /\ accounts st' = accounts (two_accounts 10 0)
    /\ disk st' = disk (two_accounts 10 0).
Proof.
  apply (transfer_money_failure (two_accounts 10 0) 0%nat "100002" 50
           (mkAccount "100001" (hash_password "1111") "savings" 10)).
  - reflexivity.
  - right. unfold fge. simpl. discriminate.
Defined.

(** C6: a transfer between two different account objects, with
    [balance >= amount] at the sender, returns [True], debits the sender by
    the amount and credits the recipient by the same amount; from 50.0 and
    0.0, a transfer of 30.0 leaves 20.0 and 30.0. *)
Theorem transfer_money_debits_and_credits (st : State) (from_account to_account : ref)
    (to_number : string) (sender recipient : Account) (amount : float) :
  heap st !! from_account = Some sender ->
  Dict.get to_number (accounts st) = Some to_account ->
  heap st !! to_account = Some recipient ->
  from_account <> to_account ->
  fge (balance sender) amount ->
  exists st',
    transfer_money st from_account to_number amount = Some (st', true)
    /\ heap st' !! from_account
       = Some (set_balance sender (balance sender - amount)%float)
    /\ heap st' !! to_account
       = Some (set_balance recipient (balance recipient + amount)%float)
    /\ (balance sender = 50%float -> balance recipient = 0%float -> amount = 30%float ->
        heap st' !! from_account = Some (set_balance sender 20)
        /\ heap st' !! to_account = Some (set_balance recipient 30)).
Proof.
  intros Hs Ht Hr Hne Hge.
  assert (Hr' : <[from_account := set_balance sender (balance sender - amount)%float]>
                  (heap st) !! to_account = Some recipient)
    by now rewrite list_lookup_insert_ne.
  eexists. split; [exact (transfer_money_success _ _ _ _ _ _ _ Hs Ht Hge Hr')|].
  cbn [heap save_accounts set_heap].
  assert (Hfrom : <[to_account := deposit recipient amount]>
                    (<[from_account := set_balance sender (balance sender - amount)%float]>
                       (heap st)) !! from_account
                  = Some (set_balance sender (balance sender - amount)%float)).
  { rewrite list_lookup_insert_ne by congruence.
    apply list_lookup_insert_eq. eapply lookup_lt_Some; eauto. }
  assert (Hto : <[to_account := deposit recipient amount]>
                  (<[from_account := set_balance sender (balance sender - amount)%float]>
                     (heap st)) !! to_account
                = Some (set_balance recipient (balance recipient + amount)%float)).
  { apply list_lookup_insert_eq. rewrite length_insert. eapply lookup_lt_Some; eauto. }
  split; [exact Hfrom|]. split; [exact Hto|].
  intros Bs Br ->. rewrite Hfrom, Hto, Bs, Br. split; reflexivity.
Qed.

Lemma transfer_money_debits_and_credits_witness :
  exists st',
    transfer_money (two_accounts 50 0) 0%nat "100002" 30 = Some (st', true)
    /\ heap st' !! 0%nat
       = Some (mkAccount "100001" (hash_password "1111") "savings" 20)
    /\ heap st' !! 1%nat
       = Some (mkAccount "100002" (hash_password "2222") "current" 30).
Proof.
  destruct (transfer_money_debits_and_credits (two_accounts 50 0) 0%nat 1%nat "100002"
              (mkAccount "100001" (hash_password "1111") "savings" 50)
              (mkAccount "100002" (hash_password "2222") "current" 0) 30
              eq_refl eq_refl eq_refl (fun H => O_S _ H) eq_refl)
    as (st' & Hcall & Hfrom & Hto & _).
  exists st'. split; [exact Hcall|]. split; [exact Hfrom | exact Hto].
Defined.

(** A balance of 0.9 and a transfer of 0.3 to the sender's own number: the
    call returns [True] and the balance is 0.9000000000000001 afterwards. *)
Lemma transfer_money_to_self_changes_balance :
  exists st',
    account_of (two_accounts 0.9 0) "100001"
      = Some (mkAccount "100001" (hash_password "1111") "savings" 0.9)
    /\ fge 0.9 0.3
    /\ transfer_money (two_accounts 0.9 0) 0%nat "100001" 0.3 = Some (st', true)
    /\ account_of st' "100001"
       = Some (mkAccount "100001" (hash_password "1111") "savings" 0.9000000000000001)
    /\ 0.9000000000000001%float <> 0.9%float.
Proof.
  eexists. split; [reflexivity|]. split; [reflexivity|].
  split; [reflexivity|]. split; [reflexivity|].
  intros H. apply (f_equal Prim2SF) in H. vm_compute in H. discriminate.
Qed.

(** C9 (amended): a transfer to the sender's own number, with
    [balance >= amount], returns [True]; withdrawal and deposit hit the same
    object, whose balance afterwards is [(balance - amount) + amount] in
    float arithmetic, with number, digest and kind as before; no other
    object and no dict entry changes. *)
Theorem transfer_money_to_self (st : State) (from_account : ref)
    (to_number : string) (amount : float) (sender : Account) :
  heap st !! from_account = Some sender ->
  Dict.get to_number (accounts st) = Some from_account ->
  fge (balance sender) amount ->
  exists st' sender',
    transfer_money st from_account to_number amount = Some (st', true)
    /\ heap st' !! from_account = Some sender'
    /\ balance sender' = ((balance sender - amount) + amount)%float
    /\ sender' = mkAccount (account_number sender) (password sender)
                           (account_type sender)
                           ((balance sender - amount) + amount)%float
    /\ (forall r, r <> from_account -> heap st' !! r = heap st !! r)
    /\ accounts st' = accounts st.
Proof.
  intros Hs Ht Hge.
  assert (Hlt : (from_account < length (heap st))%nat) by (eapply lookup_lt_Some; eauto).
  assert (Hr : <[from_account := set_balance sender (balance sender - amount)%float]> (heap st)
                 !! from_account
               = Some (set_balance sender (balance sender - amount)%float))
    by now apply list_lookup_insert_eq.
  eexists. eexists.
  split; [exact (transfer_money_success _ _ _ _ _ _ _ Hs Ht Hge Hr)|].
  cbn [heap accounts save_accounts set_heap]. rewrite list_insert_insert_eq.
  split; [now rewrite list_lookup_insert_eq|].
  unfold deposit, set_balance. cbn [balance account_number password account_type].
  split; [reflexivity|]. split; [reflexivity|]. split; [|reflexivity].
  intros r Hne. now rewrite list_lookup_insert_ne.
Qed.

(** A balance of 1.7 and a transfer of 0.4 to the sender's own number:
    1.7 - 0.4 is 1.2999999999999998, and 0.4 more is 1.6999999999999997; the
    other account keeps its 5.0. *)
Lemma transfer_money_to_self_witness :
  exists st' sender',
    transfer_money (two_accounts 1.7 5) 0%nat "100001" 0.4 = Some (st', true)
    /\ heap st' !! 0%nat = Some sender'
    /\ balance sender' = 1.6999999999999997%float
    /\ sender' = mkAccount "100001" (hash_password "1111") "savings"
                           1.6999999999999997
    /\ (forall r, r <> 0%nat -> heap st' !! r = heap (two_accounts 1.7 5) !! r)
    /\ accounts st' = accounts (two_accounts 1.7 5).
Proof.
  exact (transfer_money_to_self (two_accounts 1.7 5) 0%nat "100001" 0.4
           (mkAccount "100001" (hash_password "1111") "savings" 1.7)
           eq_refl eq_refl eq_refl).
Defined.

(* ===================================================================== *)
(** * Opening and creating accounts *)
(* ===================================================================== *)

(** C8: without [accounts.txt], [load_accounts] raises nothing and adds
    nothing, so [BankingApp()] starts with an empty dict. *)
Theorem load_accounts_without_file :
  (forall h d out, load_accounts (mkState h d None out) = Some (mkState h d None out))
  /\ (exists st, BankingApp_init None = Some st
                 /\ accounts st = [] /\ values st = [] /\ disk st = None).
Proof.
  split; [reflexivity|]. eexists. repeat split.
Qed.

(** C10: when the drawn number is already a key of the dict, [create_account]
    stores the new zero-balance account under it: the key list is the same,
    every other key keeps its object, and the number now names the new
    account with its own digest and kind. *)
Theorem create_account_overwrites (st : State) (n p : Z) (kind : string) (old : ref) :
  Dict.get (PyStr.of_int n) (accounts st) = Some old ->
  let st' := create_account st n p kind in
  account_of st' (PyStr.of_int n)
    = Some (Account_init (PyStr.of_int n) (PyStr.of_int p) kind 0)
  /\ Dict.keys (accounts st') = Dict.keys (accounts st)
  /\ (forall k, k <> PyStr.of_int n ->
        Dict.get k (accounts st') = Dict.get k (accounts st))
  /\ disk st' = Some (PyStr.concat (map to_string (values st'))).
Proof.
  intros Hold st'. unfold st', create_account, account_of. simpl.
  rewrite DictFacts.get_set_eq. repeat split.
  - now rewrite lookup_app_r, Nat.sub_diag by lia.
  - apply DictFacts.keys_set_present. eapply DictFacts.mem_get; eauto.
  - intros k Hk. apply DictFacts.get_set_ne. congruence.
Qed.

Lemma create_account_overwrites_witness :
  let st' := create_account (two_accounts 75 0) 100001 4321 "current" in
  account_of (two_accounts 75 0) "100001"
    = Some (mkAccount "100001" (hash_password "1111") "savings" 75)
  /\ account_of st' "100001"
    = Some (mkAccount "100001" (hash_password "4321") "current" 0)
  /\ Dict.keys (accounts st') = ["100001"; "100002"].
Proof.
  pose proof (create_account_overwrites (two_accounts 75 0) 100001 4321 "current"
                0%nat eq_refl) as (H1 & H2 & _).
  split; [reflexivity|]. split; [exact H1 | exact H2].
Defined.

(* ===================================================================== *)
(** * The balance invariant along runs of [main] *)
(* ===================================================================== *)

Section Invariant.

Lemma heap_nonneg_insert h r account :
  heap_nonneg h -> fge (balance account) 0 -> heap_nonneg (<[r := account]> h).
Proof.
  intros Hh Ha r' account' H.
  apply list_lookup_insert_Some in H as [(_ & <- & _)|[_ H]]; eauto.
Qed.

Lemma heap_nonneg_snoc h account :
  heap_nonneg h -> fge (balance account) 0 -> heap_nonneg (h ++ [account]).
Proof.
  intros Hh Ha r' account' H.
  apply lookup_snoc_Some in H as [[_ H]|[_ <-]]; eauto.
Qed.

Lemma deposit_nonneg account amount :
  fge (balance account) 0 -> (0 <=? amount)%float = true ->
  fge (balance (deposit account amount)) 0.
Proof. unfold fge. simpl. apply FloatFacts.add_nonneg. Qed.

Lemma withdraw_nonneg account amount :
  fge (balance account) 0 -> (amount <? infinity)%float = true ->
  fge (balance (fst (withdraw account amount))) 0.
Proof.
  unfold fge, withdraw. intros Hb Hfin.
  destruct (amount <=? balance account)%float eqn:Hle; simpl; auto.
  now apply FloatFacts.sub_nonneg.
Qed.

Lemma create_account_nonneg st n p kind :
  balances_nonneg st -> balances_nonneg (create_account st n p kind).
Proof.
  intros H. unfold balances_nonneg, create_account. simpl.
  apply heap_nonneg_snoc; [exact H | reflexivity].
Qed.

Lemma menu_deposit_nonneg st r amount st' :
  balances_nonneg st -> (0 <=? amount)%float = true ->
  menu_deposit st r amount = Some st' -> balances_nonneg st'.
Proof.
  intros H Ha. unfold menu_deposit.
  destruct (heap st !! r) as [account|] eqn:Hr; [|discriminate].
  intros [= <-]. unfold balances_nonneg. simpl.
  apply heap_nonneg_insert; [exact H|]. apply deposit_nonneg; eauto.
Qed.

Lemma menu_withdraw_nonneg st r amount st' ok :
  balances_nonneg st -> (amount <? infinity)%float = true ->
  menu_withdraw st r amount = Some (st', ok) -> balances_nonneg st'.
Proof.
  intros H Ha. unfold menu_withdraw.
  destruct (heap st !! r) as [account|] eqn:Hr; [|discriminate].
  pose proof (withdraw_nonneg account amount (H _ _ Hr) Ha) as Hw.
  destruct (withdraw account amount) as [account' []]; intros [= <- <-].
  - unfold balances_nonneg. simpl. now apply heap_nonneg_insert.
  - exact H.
Qed.

Lemma transfer_money_nonneg st r to_number amount st' ok :
  balances_nonneg st ->
  (0 <=? amount)%float = true -> (amount <? infinity)%float = true ->
  transfer_money st r to_number amount = Some (st', ok) -> balances_nonneg st'.
Proof.
  intros H Ha Hfin. unfold transfer_money.
  destruct (heap st !! r) as [sender|] eqn:Hr; [|discriminate].
  destruct (Dict.get to_number (accounts st)) as [to_account|];
    [|intros [= <- <-]; exact H].
  pose proof (withdraw_nonneg sender amount (H _ _ Hr) Hfin) as Hw.
  destruct (withdraw sender amount) as [sender' []]; [|intros [= <- <-]; exact H].
  simpl in Hw.
  assert (H1 : heap_nonneg (<[r := sender']> (heap st)))
    by now apply heap_nonneg_insert.
  destruct (<[r := sender']> (heap st) !! to_account) as [recipient|] eqn:Hto;
    [|discriminate].
  intros [= <- <-]. unfold balances_nonneg. simpl.
  apply heap_nonneg_insert; [exact H1|]. apply deposit_nonneg; eauto.
Qed.

Lemma main_step_nonneg s rq :
  balances_nonneg (app s) -> amount_ok rq = true ->
  balances_nonneg (app (main_step s rq)).
Proof.
  intros H Hok. unfold main_step.
  destruct (current s) as [r|], rq; simpl in *; auto.
  - destruct (menu_deposit (app s) r amount) as [st'|] eqn:E; simpl; auto.
    eapply menu_deposit_nonneg; eauto.
  - destruct (menu_withdraw (app s) r amount) as [[st' ok]|] eqn:E; simpl; auto.
    eapply menu_withdraw_nonneg; eauto.
  - apply andb_true_iff in Hok as [Ha Hfin].
    destruct (transfer_money (app s) r to_number amount) as [[st' ok]|] eqn:E; auto.
    pose proof (transfer_money_nonneg _ _ _ _ _ _ H Ha Hfin E) as H'.
    destruct ok; simpl; auto.
    destruct (heap st' !! r); simpl; auto.
  - destruct (heap (app s) !! r) as [account|]; auto.
    unfold delete_account.
    destruct (Dict.mem (account_number account) (accounts (app s))); simpl; auto.
  - now apply create_account_nonneg.
  - destruct (login (app s) number pwd) as [r|]; simpl; auto.
    destruct (heap (app s) !! r); simpl; auto.
Qed.

Lemma values_in_heap st account :
  account ∈ values st -> exists r, heap st !! r = Some account.
Proof.
  unfold values. intros H. apply list_elem_of_omap in H as (r & _ & H). eauto.
Qed.

End Invariant.

(** Starting without a file: create an account, log in, deposit -5.0.  The
    account's balance is then -5.0. *)
Lemma negative_deposit_breaks_invariant :
  exists s0 account,
    start None = Some s0
    /\ account_of (app (run s0 [Create "savings" 123456 1234;
                                 Login "123456" "1234";
                                 Deposit (-5)%float])) "123456" = Some account
    /\ balance account = (-5)%float
    /\ ~ fge (balance account) 0.
Proof.
  eexists. eexists. split; [reflexivity|].
  split; [vm_compute; reflexivity|]. split; [reflexivity|].
  unfold fge. simpl. discriminate.
Qed.

(** Depositing [inf] and then withdrawing [inf]: the test [inf >= inf] passes
    and the balance becomes [inf - inf], which is [nan] and not [>= 0]. *)
Lemma infinite_withdrawal_breaks_invariant :
  exists account,
    account_of (app (run fresh_session [Create "savings" 123456 1234;
                                        Login "123456" "1234";
                                        Deposit infinity;
                                        Withdraw infinity])) "123456" = Some account
    /\ Prim2SF (balance account) = S754_nan
    /\ ~ fge (balance account) 0.
Proof.
  eexists. split; [vm_compute; reflexivity|]. split; [reflexivity|].
  unfold fge. simpl. discriminate.
Qed.

(** C3 (amended): along any run of the menu loop in which every deposited or
    transferred amount is [>= 0] and every withdrawn or transferred amount is
    below [inf], from a state whose balances are all [>= 0] (such as the
    start without a file), every account object, and so every account of
    the dict, has a balance [>= 0]. *)
Theorem balances_stay_nonneg (s0 : Session) (rqs : list request) :
  balances_nonneg (app s0) ->
  forallb amount_ok rqs = true ->
  balances_nonneg (app (run s0 rqs))
  /\ (forall account, account ∈ values (app (run s0 rqs)) -> fge (balance account) 0).
Proof.
  intros H0 Hok.
  assert (H : balances_nonneg (app (run s0 rqs))).
  { unfold run. revert s0 H0 Hok.
    induction rqs as [|rq rqs IH]; simpl; intros s0 H0 Hok; auto.
    apply andb_true_iff in Hok as [Hrq Hrest].
    apply IH; auto using main_step_nonneg. }
  split; [exact H|].
  intros account Hin. apply values_in_heap in Hin as [r Hr]. eauto.
Qed.

Lemma balances_stay_nonneg_witness :
  start None = Some fresh_session
  /\ balances_nonneg (app (run fresh_session sample_requests)).
Proof.
  split; [reflexivity|].
  refine (proj1 (balances_stay_nonneg fresh_session sample_requests _ eq_refl)).
  intros r account H. destruct r; discriminate H.
Defined.

(* ===================================================================== *)
(** * Saving and loading *)
(* ===================================================================== *)

(** What [load_accounts] makes of a line written by [to_string]: the number,
    kind and balance of the account, and the hash of its digest. *)
Lemma load_line_to_string st a :
  storable a ->
  load_line st (to_string a)
  = Some {| heap := heap st ++ [Account_init (account_number a) (password a)
                                             (account_type a) (balance a)];
            accounts := Dict.set (account_number a) (length (heap st)) (accounts st);
            disk := disk st; stdout := stdout st |}.
Proof.
  intros (Hlead & Hn & Hp & Hk & Hb & Hne & Hr & Hparse).
  unfold load_line, to_string, PyStr.strip.
  cbn [String.append].
  set (b := PyFloat.repr (balance a)) in *.
  assert (Hb1 : PyStr.rstrip (b ++ PyStr.newline) = b)
    by (unfold PyStr.newline; rewrite StrFacts.rstrip_space; auto).
  assert (Hstrip :
    PyStr.rstrip (PyStr.lstrip
      (account_number a ++ String "," (password a ++ String ","
         (account_type a ++ String "," (b ++ PyStr.newline)))))
    = account_number a ++ String "," (password a ++ String ","
         (account_type a ++ String "," b))).
  { rewrite StrFacts.lstrip_field by assumption.
    assert (H3 : PyStr.rstrip (String "," (b ++ PyStr.newline)) = String "," b)
      by (rewrite StrFacts.rstrip_cons; rewrite Hb1; auto).
    assert (H2 : PyStr.rstrip (String "," (account_type a ++ String "," (b ++ PyStr.newline)))
                 = String "," (account_type a ++ String "," b)).
    { rewrite StrFacts.rstrip_cons; rewrite StrFacts.rstrip_app; rewrite H3;
        try discriminate; auto.
      destruct (account_type a); discriminate. }
    assert (H1 : PyStr.rstrip (String "," (password a ++ String ","
                   (account_type a ++ String "," (b ++ PyStr.newline))))
                 = String "," (password a ++ String "," (account_type a ++ String "," b))).
    { rewrite StrFacts.rstrip_cons; rewrite StrFacts.rstrip_app; rewrite H2;
        try discriminate; auto.
      destruct (password a); discriminate. }
    rewrite StrFacts.rstrip_app; rewrite H1; try discriminate; auto. }
  rewrite Hstrip.
  rewrite !StrFacts.split_field, StrFacts.split_last by assumption.
  now rewrite Hparse.
Qed.

Lemma sample_account_storable : storable sample_account.
Proof. repeat split; try (vm_compute; reflexivity). vm_compute. discriminate. Qed.

(** C1: at the account made for number 123456 and password 1234, the line
    written by [to_string] loads, with the same number, kind and balance, but
    [Account.__init__] hashes the stored digest again: the digest read back
    is the hash of the digest written, and differs from it. *)
Theorem load_line_hashes_digest_again :
  to_string sample_account
  = "123456,03ac674216f3e15c761ee1a5e255f067953623c8b388b4459e13f978d7c846f4,savings,0.0"
      ++ PyStr.newline
  /\ exists reloaded,
       load_line (mkState [] [] None []) (to_string sample_account)
       = Some (mkState [reloaded] [("123456", 0%nat)] None [])
       /\ account_number reloaded = account_number sample_account
       /\ account_type reloaded = account_type sample_account
       /\ balance reloaded = balance sample_account
       /\ password reloaded = hash_password (password sample_account)
       /\ password reloaded
          = "756bc47cb5215dc3329ca7e1f7be33a2dad68990bb94b76d90aa07f4e44a233a"
       /\ password reloaded <> password sample_account.
Proof.
  split; [vm_compute; reflexivity|].
  exists (mkAccount "123456"
            "756bc47cb5215dc3329ca7e1f7be33a2dad68990bb94b76d90aa07f4e44a233a"
            "savings" 0).
  split; [vm_compute; reflexivity|].
  split; [vm_compute; reflexivity|].
  split; [vm_compute; reflexivity|].
  split; [vm_compute; reflexivity|].
  split; [vm_compute; reflexivity|].
  split; [vm_compute; reflexivity|].
  vm_compute. discriminate.
Qed.

(** C2: start without a file and create the account 123456 with password
    1234.  In the running program [login] with that password succeeds; in a
    program started again on the file just saved, the same [login] returns
    [None], because the digest loaded is the hash of the digest saved. *)
Theorem login_fails_after_reload :
  exists s1 reloaded,
    start None = Some fresh_session
    /\ s1 = run fresh_session [Create "savings" 123456 1234]
    /\ stdout (app s1) = ["Account created. Account Number: 123456, Password: 1234"]
    /\ login (app s1) "123456" "1234" = Some 0%nat
    /\ BankingApp_init (disk (app s1)) = Some reloaded
    /\ Dict.keys (accounts reloaded) = ["123456"]
    /\ login reloaded "123456" "1234" = None.
Proof.
  eexists. eexists.
  split; [reflexivity|]. split; [reflexivity|].
  split; [vm_compute; reflexivity|].
  split; [vm_compute; reflexivity|].
  split; [vm_compute; reflexivity|].
  split; vm_compute; reflexivity.
Qed.

(** X15: in the running program the number and the password printed at
    creation do log in, and what [login] returns is the account just made. *)
Lemma login_after_create st n p kind :
  login (create_account st n p kind) (PyStr.of_int n) (PyStr.of_int p)
  = Some (length (heap st)).
Proof.
  unfold login, create_account.
  cbn [accounts heap print save_accounts].
  rewrite DictFacts.get_set_eq, list_lookup_middle by reflexivity.
  cbn [password Account_init]. now rewrite String.eqb_refl.
Qed.

(** [login] compares digests: it succeeds exactly on a password whose hash
    is the stored one. *)
Lemma login_spec st number pwd r :
  login st number pwd = Some r <->
  Dict.get number (accounts st) = Some r
  /\ exists account, heap st !! r = Some account
                     /\ password account = hash_password pwd.
Proof.
  unfold login. generalize (hash_password pwd). intros digest.
  destruct (Dict.get number (accounts st)) as [r'|].
  - destruct (heap st !! r') as [account|] eqn:Hr.
    + destruct (String.eqb_spec (password account) digest) as [E|E].
      * split.
        -- intros [= <-]. eauto.
        -- now intros [[= <-] _].
      * split; [discriminate|].
        intros [[= <-] (account' & H & E')]. congruence.
    + split; [discriminate|]. intros [[= <-] (account' & H & _)]. congruence.
  - split; [discriminate|]. intros [H _]. discriminate.
Qed.

(* ===================================================================== *)
(** * Further facts: field characters, the file format, the ledger *)
(* ===================================================================== *)

Module CharFacts.

Lemma all_chars_impl (p q : ascii -> bool) s :
  (forall c, p c = true -> q c = true) ->
  all_chars p s = true -> all_chars q s = true.
Proof.
  intros Hpq. induction s as [|c s IH]; simpl; auto.
  intros H. apply andb_true_iff in H as [Hc Hs].
  rewrite (Hpq _ Hc). auto.
Qed.

Lemma all_chars_app p s t :
  all_chars p (s ++ t) = all_chars p s && all_chars p t.
Proof.
  induction s as [|c s IH]; simpl; auto. now rewrite IH, andb_assoc.
Qed.

Lemma code_range c : 0 <= PyStr.code c < 256.
Proof.
  unfold PyStr.code. pose proof (N_ascii_bounded c). lia.
Qed.

Lemma hex_char_plain c : hex_char c = true -> plain_char c = true.
Proof.
  destruct c as [[|] [|] [|] [|] [|] [|] [|] [|]]; vm_compute; congruence.
Qed.

Lemma int_char_plain c : int_char c = true -> plain_char c = true.
Proof.
  destruct c as [[|] [|] [|] [|] [|] [|] [|] [|]]; vm_compute; congruence.
Qed.

Lemma plain_no_comma s : plain s = true -> no_comma s = true.
Proof.
  unfold plain. induction s as [|c s IH]; simpl; auto.
  intros H. apply andb_true_iff in H as [Hc Hs].
  unfold plain_char in Hc. apply andb_true_iff in Hc as [Hc _].
  rewrite Hc. auto.
Qed.

Lemma plain_no_leading_space s : plain s = true -> no_leading_space s = true.
Proof.
  unfold plain. destruct s as [|c s]; simpl; auto.
  intros H. apply andb_true_iff in H as [Hc _].
  unfold plain_char in Hc. now apply andb_true_iff in Hc as [_ Hc].
Qed.

Lemma plain_rstrip s : plain s = true -> PyStr.rstrip s = s.
Proof.
  unfold plain. induction s as [|c s IH]; simpl; auto.
  intros H. apply andb_true_iff in H as [Hc Hs].
  rewrite IH by assumption.
  unfold plain_char in Hc. apply andb_true_iff in Hc as [_ Hc].
  apply negb_true_iff in Hc. rewrite Hc. now destruct s.
Qed.

End CharFacts.

Module IntFacts.

Lemma string_of_uint_chars d :
  all_chars int_char (NilEmpty.string_of_uint d) = true.
Proof. induction d; simpl; auto. Qed.

Lemma of_int_chars n : all_chars int_char (PyStr.of_int n) = true.
Proof.
  unfold PyStr.of_int, NilZero.string_of_int, NilZero.string_of_uint.
  destruct (Z.to_int n) as [d|d]; destruct d; simpl;
    auto using string_of_uint_chars.
Qed.

Lemma of_int_plain n : plain (PyStr.of_int n) = true.
Proof.
  eapply CharFacts.all_chars_impl; [apply CharFacts.int_char_plain|].
  apply of_int_chars.
Qed.

Lemma to_int_not_nil n : Z.to_int n <> Decimal.Pos Decimal.Nil
                         /\ Z.to_int n <> Decimal.Neg Decimal.Nil.
Proof.
  destruct n as [|p|p]; simpl; split; try discriminate;
    intros [= H]; now apply (Unsigned.to_uint_nonnil p).
Qed.

End IntFacts.

(** [str] of an [int] is one-to-one: two draws collide only when they are
    the same integer. *)
Lemma of_int_injective n m : PyStr.of_int n = PyStr.of_int m -> n = m.
Proof.
  unfold PyStr.of_int. intros H.
  apply DecimalZ.to_int_inj.
  pose proof (IntFacts.to_int_not_nil n) as [Hn1 Hn2].
  pose proof (IntFacts.to_int_not_nil m) as [Hm1 Hm2].
  pose proof (NilZero.isi _ Hn1 Hn2) as En.
  pose proof (NilZero.isi _ Hm1 Hm2) as Em.
  rewrite H in En. congruence.
Qed.

Module HashFacts.

Lemma be_bytes_length n x : length (Sha256.be_bytes n x) = n.
Proof. induction n; simpl; auto. Qed.

Lemma be_bytes_range n x :
  Forall (fun b => 0 <= b < 256) (Sha256.be_bytes n x).
Proof.
  induction n as [|n IH]; simpl; constructor; auto.
  change 255 with (Z.ones 8). rewrite Z.land_ones by lia.
  apply Z.mod_pos_bound. lia.
Qed.

Lemma hex_digit_char d : 0 <= d < 16 -> hex_char (Sha256.hex_digit d) = true.
Proof.
  intros H.
  assert (E : d = 0 \/ d = 1 \/ d = 2 \/ d = 3 \/ d = 4 \/ d = 5 \/ d = 6 \/ d = 7 \/
              d = 8 \/ d = 9 \/ d = 10 \/ d = 11 \/ d = 12 \/ d = 13 \/ d = 14 \/ d = 15)
    by lia.
  repeat (destruct E as [->|E]; [reflexivity|]). subst. reflexivity.
Qed.

Lemma hex_chars bs :
  Forall (fun b => 0 <= b < 256) bs ->
  all_chars hex_char (Sha256.hex bs) = true
  /\ String.length (Sha256.hex bs) = (2 * length bs)%nat.
Proof.
  induction 1 as [|b bs Hb _ [IH1 IH2]]; [split; reflexivity|].
  cbn [Sha256.hex all_chars String.length length].
  rewrite IH1, IH2, !hex_digit_char.
  - split; [reflexivity | lia].
  - change 15 with (Z.ones 4). rewrite Z.land_ones by lia.
    apply Z.mod_pos_bound. lia.
  - rewrite Z.shiftr_div_pow2 by lia. change (2 ^ 4) with 16.
    split; [apply Z.div_pos; lia | apply Z.div_lt_upper_bound; lia].
Qed.

Lemma digest_bytes msg :
  Forall (fun b => 0 <= b < 256) (Sha256.digest msg)
  /\ length (Sha256.digest msg) = 32%nat.
Proof.
  unfold Sha256.digest.
  generalize (fold_left Sha256.compress
                (Sha256.blocks (length (Sha256.words (Sha256.pad msg)))
                   (Sha256.words (Sha256.pad msg))) Sha256.init).
  intros h. cbn [flat_map]. split.
  - repeat (apply Forall_app; split); auto using be_bytes_range.
  - rewrite !length_app, !be_bytes_length. reflexivity.
Qed.

Lemma hash_password_chars (pwd : string) :
  String.length (hash_password pwd) = 64%nat
  /\ all_chars hex_char (hash_password pwd) = true
  /\ plain (hash_password pwd) = true.
Proof.
  unfold hash_password, Sha256.hexdigest.
  destruct (digest_bytes (Sha256.encode pwd)) as [Hr Hl].
  destruct (hex_chars _ Hr) as [Hc Hlen].
  rewrite Hlen, Hl. repeat split; auto.
  eapply CharFacts.all_chars_impl; [apply CharFacts.hex_char_plain | exact Hc].
Qed.

End HashFacts.

Module ReprFacts.

Lemma float_char_plain c : float_char c = true -> plain_char c = true.
Proof.
  destruct c as [[|] [|] [|] [|] [|] [|] [|] [|]]; vm_compute; congruence.
Qed.

Lemma int_float_char c : int_char c = true -> float_char c = true.
Proof. unfold float_char. now intros ->. Qed.

Lemma zeros_chars n : all_chars float_char (PyFloat.zeros n) = true.
Proof. induction n; simpl; auto. Qed.

Lemma strip_zeros_chars p s :
  all_chars p s = true -> all_chars p (PyFloat.strip_zeros s) = true.
Proof.
  induction s as [|c s IH]; simpl; auto.
  intros H. apply andb_true_iff in H as [Hc Hs]. specialize (IH Hs).
  destruct (PyFloat.strip_zeros s); simpl in *.
  - destruct (Ascii.eqb c "0"); simpl; auto. now rewrite Hc.
  - now rewrite Hc.
Qed.

Lemma substring_chars p n m s :
  all_chars p s = true -> all_chars p (substring n m s) = true.
Proof.
  revert n m. induction s as [|c s IH]; intros n m H.
  - destruct n, m; reflexivity.
  - simpl in H. apply andb_true_iff in H as [Hc Hs].
    destruct n as [|n]; simpl.
    + destruct m as [|m]; simpl; auto. now rewrite Hc, IH.
    + auto.
Qed.

Lemma of_int_float_chars n : all_chars float_char (PyStr.of_int n) = true.
Proof.
  eapply CharFacts.all_chars_impl; [apply int_float_char|].
  apply IntFacts.of_int_chars.
Qed.

Ltac chars :=
  rewrite ?CharFacts.all_chars_app;
  repeat (apply andb_true_intro; split);
  auto using zeros_chars, substring_chars, of_int_float_chars.

Lemma layout_chars ds dp :
  all_chars float_char ds = true ->
  all_chars float_char (PyFloat.layout ds dp) = true.
Proof.
  intros H. unfold PyFloat.layout.
  repeat match goal with
         | |- context [if ?b then _ else _] => destruct b
         end; chars.
Qed.

Lemma append_nonempty_r s t : t <> "" -> s ++ t <> "".
Proof. destruct s; simpl; [auto | discriminate]. Qed.

Ltac nonempty :=
  first [ cbn [String.append]; discriminate | apply append_nonempty_r; nonempty ].

Lemma layout_nonempty ds dp : PyFloat.layout ds dp <> "".
Proof.
  unfold PyFloat.layout.
  repeat match goal with
         | |- context [if ?b then _ else _] => destruct b
         end; nonempty.
Qed.

Lemma repr_finite_chars m e :
  all_chars float_char (PyFloat.repr_finite m e) = true
  /\ PyFloat.repr_finite m e <> "".
Proof.
  unfold PyFloat.repr_finite.
  destruct (PyFloat.shortest m e) as [c k]. split.
  - apply layout_chars.
    pose proof (strip_zeros_chars float_char _ (of_int_float_chars c)) as H.
    destruct (PyFloat.strip_zeros (PyStr.of_int c)); auto.
  - apply layout_nonempty.
Qed.

End ReprFacts.

(** The text of a float never holds a comma, white space or a line end, and
    is never empty. *)
Lemma repr_plain (x : float) :
  plain (PyFloat.repr x) = true /\ PyFloat.repr x <> "".
Proof.
  unfold PyFloat.repr, PyFloat.repr_sf.
  destruct (Prim2SF x) as [s|s| |s m e].
  - destruct s; split; simpl; (reflexivity || discriminate).
  - destruct s; split; simpl; (reflexivity || discriminate).
  - split; simpl; (reflexivity || discriminate).
  - destruct (ReprFacts.repr_finite_chars m e) as [Hc Hne]. split.
    + eapply CharFacts.all_chars_impl; [apply ReprFacts.float_char_plain|].
      rewrite CharFacts.all_chars_app, Hc. now destruct s.
    + now apply ReprFacts.append_nonempty_r.
Qed.

Module FileFacts.

Lemma append_assoc (s t u : string) : (s ++ t) ++ u = s ++ (t ++ u).
Proof. induction s as [|c s IH]; simpl; congruence. Qed.

Lemma append_empty_r (s : string) : s ++ "" = s.
Proof. induction s as [|c s IH]; simpl; congruence. Qed.

Lemma plain_one_line s : plain s = true -> one_line s = true.
Proof.
  apply CharFacts.all_chars_impl.
  intros c. destruct c as [[|] [|] [|] [|] [|] [|] [|] [|]]; vm_compute; congruence.
Qed.

Lemma savable_storable a : savable a -> storable a.
Proof.
  intros (H1 & H2 & H3 & H4 & _ & _ & _ & H8).
  destruct (repr_plain (balance a)) as [Hp Hne].
  repeat split; auto using CharFacts.plain_no_comma, CharFacts.plain_rstrip.
Qed.

Lemma to_string_body a : to_string a = record_body a ++ PyStr.newline.
Proof.
  unfold to_string, record_body. cbn [String.append].
  repeat (rewrite append_assoc; cbn [String.append]). reflexivity.
Qed.

Lemma one_line_body a : savable a -> one_line (record_body a) = true.
Proof.
  intros (_ & _ & _ & _ & H5 & H6 & H7 & _).
  destruct (repr_plain (balance a)) as [Hp _]. apply plain_one_line in Hp.
  unfold one_line, record_body in *. cbn [String.append].
  rewrite !CharFacts.all_chars_app. cbn [all_chars].
  rewrite !CharFacts.all_chars_app. cbn [all_chars].
  rewrite !CharFacts.all_chars_app. cbn [all_chars].
  now rewrite H5, H6, H7, Hp.
Qed.

Lemma universal_newlines_id s :
  all_chars (fun c => negb (Ascii.eqb c PyStr.CR)) s = true ->
  PyStr.universal_newlines s = s.
Proof.
  induction s as [|c s IH]; simpl; auto.
  intros H. apply andb_true_iff in H as [Hc Hs].
  apply negb_true_iff in Hc. rewrite Hc. now rewrite IH.
Qed.

Lemma lines_keepends_line s rest :
  one_line s = true ->
  PyStr.lines_keepends (s ++ String PyStr.LF rest)
  = (s ++ PyStr.newline) :: PyStr.lines_keepends rest.
Proof.
  unfold one_line. induction s as [|c s IH]; intros H.
  - reflexivity.
  - simpl in H. apply andb_true_iff in H as [Hc Hs].
    unfold line_char in Hc. apply andb_true_iff in Hc as [Hc _].
    apply negb_true_iff in Hc.
    cbn [String.append PyStr.lines_keepends]. rewrite Hc, IH by assumption.
    reflexivity.
Qed.

Lemma concat_cons_line s ls :
  PyStr.concat ((s ++ PyStr.newline) :: ls) = s ++ String PyStr.LF (PyStr.concat ls).
Proof.
  unfold PyStr.concat. cbn [fold_right].
  now rewrite append_assoc.
Qed.

Lemma no_cr_line s t :
  one_line s = true ->
  all_chars (fun c => negb (Ascii.eqb c PyStr.CR)) t = true ->
  all_chars (fun c => negb (Ascii.eqb c PyStr.CR)) (s ++ String PyStr.LF t) = true.
Proof.
  intros Hs Ht. rewrite CharFacts.all_chars_app. cbn [all_chars].
  rewrite Ht. apply andb_true_iff. split; [|reflexivity].
  revert Hs. apply CharFacts.all_chars_impl.
  intros c Hc. unfold line_char in Hc. now apply andb_true_iff in Hc as [_ Hc].
Qed.

(** A text made of complete lines reads back as those lines. *)
Lemma readlines_concat (bodies : list string) :
  Forall (fun s => one_line s = true) bodies ->
  PyStr.readlines (PyStr.concat (map (fun s => s ++ PyStr.newline) bodies))
  = map (fun s => s ++ PyStr.newline) bodies.
Proof.
  intros H. unfold PyStr.readlines.
  assert (Hcr : all_chars (fun c => negb (Ascii.eqb c PyStr.CR))
                  (PyStr.concat (map (fun s => s ++ PyStr.newline) bodies)) = true).
  { induction H as [|s bodies Hs _ IH]; [reflexivity|].
    cbn [map]. rewrite concat_cons_line. now apply no_cr_line. }
  rewrite universal_newlines_id by assumption. clear Hcr.
  induction H as [|s bodies Hs _ IH]; [reflexivity|].
  cbn [map]. rewrite concat_cons_line, lines_keepends_line by assumption.
  now rewrite IH.
Qed.

Lemma load_line_record st a :
  storable a -> load_line st (to_string a) = Some (register st (reloaded a)).
Proof. intros H. now rewrite load_line_to_string. Qed.

Lemma load_lines_records st accts :
  Forall storable accts ->
  load_lines st (map to_string accts)
  = Some (fold_left register (map reloaded accts) st).
Proof.
  intros H. revert st. induction H as [|a accts Ha _ IH]; intros st.
  - reflexivity.
  - cbn [map load_lines fold_left]. rewrite load_line_record by assumption.
    apply IH.
Qed.

Lemma heap_fold_register accts st :
  heap (fold_left register accts st) = (heap st ++ accts)%list.
Proof.
  revert st. induction accts as [|a accts IH]; intros st; cbn [fold_left].
  - now rewrite app_nil_r.
  - rewrite IH. cbn [register heap]. now rewrite <- app_assoc.
Qed.

Lemma disk_fold_register accts st :
  disk (fold_left register accts st) = disk st
  /\ stdout (fold_left register accts st) = stdout st.
Proof.
  revert st. induction accts as [|a accts IH]; intros st; cbn [fold_left]; auto.
  destruct (IH (register st a)) as [-> ->]. split; reflexivity.
Qed.

Lemma get_fold_register_other k accts st :
  ~ In k (map account_number accts) ->
  Dict.get k (accounts (fold_left register accts st)) = Dict.get k (accounts st).
Proof.
  revert st. induction accts as [|a accts IH]; intros st Hk; cbn [fold_left]; auto.
  cbn [map In] in Hk. rewrite IH by tauto.
  cbn [register accounts]. apply DictFacts.get_set_ne. tauto.
Qed.

Lemma get_fold_register accts st (i : nat) a :
  List.NoDup (map account_number accts) ->
  accts !! i = Some a ->
  Dict.get (account_number a) (accounts (fold_left register accts st))
  = Some (length (heap st) + i)%nat.
Proof.
  revert st i. induction accts as [|a0 accts IH]; intros st i Hnd Hi; [discriminate|].
  cbn [map] in Hnd. inversion Hnd as [|? ? Hnotin Hnd']; subst.
  cbn [fold_left]. destruct i as [|i]; cbn in Hi.
  - injection Hi as ->.
    rewrite get_fold_register_other by assumption.
    cbn [register accounts]. rewrite DictFacts.get_set_eq. f_equal. lia.
  - rewrite (IH _ i Hnd' Hi). cbn [register heap]. rewrite length_app. cbn [length].
    f_equal. lia.
Qed.


Lemma restart (st : State) :
  Forall savable (values st) ->
  exists st',
    BankingApp_init (disk (save_accounts st)) = Some st'
    /\ heap st' = map reloaded (values st)
    /\ disk st' = disk (save_accounts st)
    /\ (List.NoDup (map account_number (values st)) ->
        forall a, a ∈ values st ->
                  account_of st' (account_number a) = Some (reloaded a)).
Proof.
  intros Hs.
  assert (Hbodies : map to_string (values st)
                    = map (fun s => s ++ PyStr.newline) (map record_body (values st))).
  { rewrite map_map. apply map_ext. apply to_string_body. }
  assert (Hone : Forall (fun s => one_line s = true) (map record_body (values st))).
  { apply Forall_map. eapply Forall_impl; [exact Hs|].
    intros a Ha. now apply one_line_body. }
  assert (Hst : Forall storable (values st)).
  { eapply Forall_impl; [exact Hs|]. apply savable_storable. }
  unfold BankingApp_init, load_accounts, save_accounts. cbn [disk].
  rewrite Hbodies, readlines_concat, <- Hbodies by assumption.
  rewrite load_lines_records by assumption.
  eexists. split; [reflexivity|].
  rewrite heap_fold_register.
  destruct (disk_fold_register (map reloaded (values st))
              {| heap := []; accounts := [];
                 disk := Some (PyStr.concat (map to_string (values st)));
                 stdout := [] |}) as [Hd _].
  rewrite Hd. cbn [heap disk app]. repeat split.
  intros Hnd a Hin. unfold account_of.
  apply list_elem_of_lookup in Hin as [i Hi].
  assert (Hi' : map reloaded (values st) !! i = Some (reloaded a))
    by (rewrite list_lookup_fmap, Hi; reflexivity).
  assert (Hnd' : List.NoDup (map account_number (map reloaded (values st))))
    by (rewrite map_map; exact Hnd).
  change (account_number a) with (account_number (reloaded a)).
  rewrite (get_fold_register _ _ i _ Hnd' Hi').
  rewrite heap_fold_register. cbn [heap length app Nat.add].
  exact Hi'.
Qed.

End FileFacts.

Module DictMore.

Lemma get_none k d : Dict.get k d = None <-> ~ In k (Dict.keys d).
Proof.
  unfold Dict.keys. induction d as [|[k0 v0] d IH]; simpl.
  - tauto.
  - destruct (String.eqb_spec k0 k) as [->|Hne].
    + split; [discriminate | tauto].
    + rewrite IH. tauto.
Qed.

Lemma mem_false k d : Dict.mem k d = false <-> ~ In k (Dict.keys d).
Proof.
  rewrite <- get_none. unfold Dict.mem. destruct (Dict.get k d); split; congruence.
Qed.

Lemma NoDup_snoc (l : list string) k :
  List.NoDup l -> ~ In k l -> List.NoDup (l ++ [k]).
Proof.
  induction 1 as [|x l Hx Hl IH]; simpl; intros Hk.
  - constructor; [intros [] | constructor].
  - constructor.
    + rewrite in_app_iff. simpl. intros [H|[H|[]]]; [contradiction|].
      apply Hk. now left.
    + apply IH. intros H. apply Hk. now right.
Qed.

Lemma NoDup_keys_set k v d :
  List.NoDup (Dict.keys d) -> List.NoDup (Dict.keys (Dict.set k v d)).
Proof.
  intros H. destruct (Dict.mem k d) eqn:E.
  - now rewrite DictFacts.keys_set_present.
  - rewrite DictFacts.keys_set_absent by assumption.
    apply mem_false in E. now apply NoDup_snoc.
Qed.

Lemma keys_del_subset k d x : In x (Dict.keys (Dict.del k d)) -> In x (Dict.keys d).
Proof.
  unfold Dict.keys. induction d as [|[k0 v0] d IH]; simpl; auto.
  destruct (String.eqb k0 k); simpl; tauto.
Qed.

Lemma NoDup_keys_del k d :
  List.NoDup (Dict.keys d) -> List.NoDup (Dict.keys (Dict.del k d)).
Proof.
  unfold Dict.keys. induction d as [|[k0 v0] d IH]; simpl; auto.
  intros H. inversion H as [|? ? Hnotin Hnd]; subst.
  destruct (String.eqb k0 k); simpl; auto.
  constructor; auto. intros Hin. apply Hnotin. eapply keys_del_subset; eauto.
Qed.

Lemma get_del_eq k d : List.NoDup (Dict.keys d) -> Dict.get k (Dict.del k d) = None.
Proof.
  unfold Dict.keys. induction d as [|[k0 v0] d IH]; simpl; auto.
  intros H. inversion H as [|? ? Hnotin Hnd]; subst.
  destruct (String.eqb_spec k0 k) as [->|Hne]; simpl.
  - now apply get_none.
  - apply String.eqb_neq in Hne. rewrite Hne. auto.
Qed.

Lemma get_del_ne k k' d : k <> k' -> Dict.get k' (Dict.del k d) = Dict.get k' d.
Proof.
  intros Hne. induction d as [|[k0 v0] d IH]; simpl; auto.
  destruct (String.eqb_spec k0 k) as [->|Hne0]; simpl.
  - apply String.eqb_neq in Hne. now rewrite Hne.
  - now rewrite IH.
Qed.

Lemma refs_del k d : Dict.mem k d = true ->
  length (Dict.del k d) = pred (length d).
Proof.
  unfold Dict.mem. induction d as [|[k0 v0] d IH]; simpl; [discriminate|].
  destruct (String.eqb k0 k); simpl; auto.
  intros H. rewrite IH by assumption.
  destruct d; simpl in *; [discriminate|reflexivity].
Qed.

End DictMore.

Module LedgerFacts.

Lemma ledger_ok_same st st' :
  heap st' = heap st -> accounts st' = accounts st -> ledger_ok st -> ledger_ok st'.
Proof. unfold ledger_ok. intros -> ->. auto. Qed.

Lemma handle_ok_same st st' r :
  heap st' = heap st -> accounts st' = accounts st -> handle_ok st r -> handle_ok st' r.
Proof. unfold handle_ok. intros -> ->. auto. Qed.

Lemma ledger_ok_register st a : ledger_ok st -> ledger_ok (register st a).
Proof.
  intros [Hnd Hget]. split; cbn [register accounts heap].
  - now apply DictMore.NoDup_keys_set.
  - intros k r Hk.
    destruct (String.eqb_spec (account_number a) k) as [<-|Hne].
    + rewrite DictFacts.get_set_eq in Hk. injection Hk as <-.
      exists a. split; [apply list_lookup_middle|]; reflexivity.
    + rewrite DictFacts.get_set_ne in Hk by assumption.
      destruct (Hget _ _ Hk) as (a0 & Ha0 & Hn). exists a0. split; [|exact Hn].
      rewrite lookup_app_l; [exact Ha0|]. eapply lookup_lt_Some; eauto.
Qed.

Lemma lookup_update (h : list Account) r a' r0 a0 :
  h !! r0 = Some a0 ->
  (forall a, h !! r = Some a -> account_number a' = account_number a) ->
  exists a0', <[r := a']> h !! r0 = Some a0'
              /\ account_number a0' = account_number a0.
Proof.
  intros H0 Hn. destruct (decide (r = r0)) as [->|Hne].
  - exists a'. split; [|now apply Hn].
    apply list_lookup_insert_eq. eapply lookup_lt_Some; eauto.
  - exists a0. split; [|reflexivity]. now rewrite list_lookup_insert_ne.
Qed.

Lemma ledger_ok_update st r a' :
  ledger_ok st ->
  (forall a, heap st !! r = Some a -> account_number a' = account_number a) ->
  ledger_ok (set_heap st (<[r := a']> (heap st))).
Proof.
  intros [Hnd Hget] Hn. split; cbn [set_heap accounts heap]; [exact Hnd|].
  intros k r0 Hk. destruct (Hget _ _ Hk) as (a0 & Ha0 & <-).
  destruct (lookup_update _ r a' _ _ Ha0 Hn) as (a0' & H1 & H2). eauto.
Qed.

Lemma handle_ok_update st r a' r0 :
  handle_ok st r0 ->
  (forall a, heap st !! r = Some a -> account_number a' = account_number a) ->
  handle_ok (set_heap st (<[r := a']> (heap st))) r0.
Proof.
  intros (a0 & Ha0 & Hk) Hn.
  destruct (lookup_update _ r a' _ _ Ha0 Hn) as (a0' & H1 & H2).
  exists a0'. split; [exact H1|]. cbn [set_heap accounts]. now rewrite H2.
Qed.

Lemma ledger_ok_del st number :
  ledger_ok st ->
  ledger_ok {| heap := heap st; accounts := Dict.del number (accounts st);
               disk := disk st; stdout := stdout st |}.
Proof.
  intros [Hnd Hget]. split; cbn [accounts heap].
  - now apply DictMore.NoDup_keys_del.
  - intros k r Hk. destruct (String.eqb_spec number k) as [<-|Hne].
    + rewrite DictMore.get_del_eq in Hk by assumption. discriminate.
    + rewrite DictMore.get_del_ne in Hk by assumption. eauto.
Qed.

Lemma load_line_register st line st' :
  load_line st line = Some st' ->
  exists number pwd kind b, st' = register st (Account_init number pwd kind b).
Proof.
  unfold load_line.
  destruct (PyStr.split "," (PyStr.strip line)) as [|n [|p [|k [|b [|]]]]];
    try discriminate.
  destruct (PyFloat.of_string b) as [x|]; [|discriminate].
  intros [= <-]. now exists n, p, k, x.
Qed.

Lemma load_lines_ledger_ok lines st st' :
  load_lines st lines = Some st' -> ledger_ok st -> ledger_ok st'.
Proof.
  revert st. induction lines as [|line lines IH]; intros st; cbn [load_lines].
  - now intros [= <-].
  - destruct (load_line st line) as [st1|] eqn:E; [|discriminate].
    intros H Hok. apply (IH _ H).
    apply load_line_register in E as (n & p & k & b & ->).
    now apply ledger_ok_register.
Qed.

Lemma withdraw_number a amount :
  account_number (fst (withdraw a amount)) = account_number a.
Proof. unfold withdraw. now destruct (amount <=? balance a)%float. Qed.

Lemma login_handle st number pwd r :
  ledger_ok st -> login st number pwd = Some r -> handle_ok st r.
Proof.
  intros [_ Hget]. unfold login.
  destruct (Dict.get number (accounts st)) as [r'|] eqn:Hk; [|discriminate].
  destruct (Hget _ _ Hk) as (a' & Ha' & Hn). unfold ref in *. rewrite Ha'.
  destruct (String.eqb (password a') (hash_password pwd)); [|discriminate].
  intros [= <-]. exists a'. split; [exact Ha'|]. now rewrite Hn.
Qed.

End LedgerFacts.
Module SessionFacts.
Import LedgerFacts.

Lemma session_ok_intro st c :
  ledger_ok st -> (forall r, c = Some r -> handle_ok st r) ->
  session_ok (mkSession st c).
Proof. intros Hl Hh. split; [exact Hl | exact Hh]. Qed.

Lemma menu_deposit_ok st r amount st' :
  ledger_ok st -> handle_ok st r ->
  menu_deposit st r amount = Some st' -> ledger_ok st' /\ handle_ok st' r.
Proof.
  intros Hl Hh. unfold menu_deposit.
  destruct (heap st !! r) as [account|] eqn:Hr; [|discriminate].
  intros [= <-].
  assert (Hn : forall a, heap st !! r = Some a ->
                 account_number (deposit account amount) = account_number a)
    by (intros a Ha; unfold ref in *; rewrite Hr in Ha; now injection Ha as <-).
  split.
  - eapply ledger_ok_same; [| |exact (ledger_ok_update st r _ Hl Hn)]; reflexivity.
  - eapply handle_ok_same; [| |exact (handle_ok_update st r _ r Hh Hn)]; reflexivity.
Qed.

Lemma menu_withdraw_ok st r amount st' ok :
  ledger_ok st -> handle_ok st r ->
  menu_withdraw st r amount = Some (st', ok) -> ledger_ok st' /\ handle_ok st' r.
Proof.
  intros Hl Hh. unfold menu_withdraw.
  destruct (heap st !! r) as [account|] eqn:Hr; [|discriminate].
  pose proof (withdraw_number account amount) as Hw.
  destruct (withdraw account amount) as [account' []]; cbn [fst] in Hw; intros [= <- <-].
  - assert (Hn : forall a, heap st !! r = Some a ->
                   account_number account' = account_number a)
      by (intros a Ha; unfold ref in *; rewrite Hr in Ha; injection Ha as <-; exact Hw).
    split.
    + eapply ledger_ok_same; [| |exact (ledger_ok_update st r _ Hl Hn)]; reflexivity.
    + eapply handle_ok_same; [| |exact (handle_ok_update st r _ r Hh Hn)]; reflexivity.
  - split; [eapply ledger_ok_same | eapply handle_ok_same]; eauto.
Qed.

Lemma transfer_money_ok st r to_number amount st' ok :
  ledger_ok st -> handle_ok st r ->
  transfer_money st r to_number amount = Some (st', ok) ->
  ledger_ok st' /\ handle_ok st' r.
Proof.
  intros Hl Hh. unfold transfer_money.
  destruct (heap st !! r) as [sender|] eqn:Hr; [|discriminate].
  destruct (Dict.get to_number (accounts st)) as [to_account|];
    [|intros [= <- <-]; split; [eapply ledger_ok_same | eapply handle_ok_same]; eauto].
  pose proof (withdraw_number sender amount) as Hw.
  destruct (withdraw sender amount) as [sender' []]; cbn [fst] in Hw;
    [|intros [= <- <-]; split; [eapply ledger_ok_same | eapply handle_ok_same]; eauto].
  assert (Hn1 : forall a, heap st !! r = Some a ->
                  account_number sender' = account_number a)
    by (intros a Ha; unfold ref in *; rewrite Hr in Ha; injection Ha as <-; exact Hw).
  pose proof (ledger_ok_update st r _ Hl Hn1) as Hl1.
  pose proof (handle_ok_update st r _ r Hh Hn1) as Hh1.
  destruct (<[r := sender']> (heap st) !! to_account) as [recipient|] eqn:Hto;
    [|discriminate].
  intros [= <- <-].
  set (st1 := set_heap st (<[r := sender']> (heap st))) in *.
  assert (Hn2 : forall a, heap st1 !! to_account = Some a ->
                  account_number (deposit recipient amount) = account_number a).
  { intros a Ha. cbn [st1 set_heap heap] in Ha. unfold ref in *.
    rewrite Hto in Ha. now injection Ha as <-. }
  split.
  - eapply ledger_ok_same; [| |exact (ledger_ok_update st1 to_account _ Hl1 Hn2)];
      reflexivity.
  - eapply handle_ok_same; [| |exact (handle_ok_update st1 to_account _ r Hh1 Hn2)];
      reflexivity.
Qed.

(** With a consistent ledger and a session account, [transfer_money] always
    returns: the recipient found in the dict is an object of the store. *)
Lemma transfer_money_returns st r to_number amount :
  ledger_ok st -> handle_ok st r ->
  exists st' ok, transfer_money st r to_number amount = Some (st', ok).
Proof.
  intros [_ Hget] (sender & Hr & _). unfold transfer_money. unfold ref in *.
  rewrite Hr.
  destruct (Dict.get to_number (accounts st)) as [to_account|] eqn:Ht;
    [|do 2 eexists; reflexivity].
  destruct (withdraw sender amount) as [sender' []]; [|do 2 eexists; reflexivity].
  destruct (Hget _ _ Ht) as (a0 & Ha0 & _). cbn zeta. unfold ref in *.
  destruct (<[r := sender']> (heap st) !! to_account) as [recipient|] eqn:Hto;
    [do 2 eexists; reflexivity|].
  apply lookup_ge_None in Hto. rewrite length_insert in Hto.
  apply lookup_lt_Some in Ha0. lia.
Qed.

Lemma main_step_ok s rq : session_ok s -> session_ok (main_step s rq).
Proof.
  intros Hs. destruct Hs as [Hl Hh]. unfold main_step.
  destruct s as [st c]. cbn [app current] in *.
  destruct c as [r|]; destruct rq; try (split; assumption).
  - (* deposit *)
    destruct (menu_deposit st r amount) as [st'|] eqn:E; [|split; assumption].
    destruct (menu_deposit_ok _ _ _ _ Hl (Hh r eq_refl) E) as [Hl' Hh'].
    apply session_ok_intro; [exact Hl'|]. now intros r0 [= <-].
  - (* withdraw *)
    destruct (menu_withdraw st r amount) as [[st' ok]|] eqn:E; [|split; assumption].
    destruct (menu_withdraw_ok _ _ _ _ _ Hl (Hh r eq_refl) E) as [Hl' Hh'].
    apply session_ok_intro; [exact Hl'|]. now intros r0 [= <-].
  - (* transfer *)
    destruct (transfer_money st r to_number amount) as [[st' ok]|] eqn:E;
      [|split; assumption].
    destruct (transfer_money_ok _ _ _ _ _ _ Hl (Hh r eq_refl) E) as [Hl' Hh'].
    destruct ok.
    + destruct (heap st' !! r) as [account|]; [|split; assumption].
      apply session_ok_intro.
      * eapply ledger_ok_same; [| |exact Hl']; reflexivity.
      * intros r0 [= <-]. eapply handle_ok_same; [| |exact Hh']; reflexivity.
    + apply session_ok_intro; [exact Hl'|]. now intros r0 [= <-].
  - (* delete *)
    destruct (heap st !! r) as [account|]; [|split; assumption].
    unfold delete_account.
    destruct (Dict.mem (account_number account) (accounts st)).
    + apply session_ok_intro; [|discriminate].
      eapply ledger_ok_same;
        [| |exact (ledger_ok_del st (account_number account) Hl)]; reflexivity.
    + apply session_ok_intro.
      * eapply ledger_ok_same; [| |exact Hl]; reflexivity.
      * intros r0 [= <-]. eapply handle_ok_same; [| |exact (Hh r eq_refl)]; reflexivity.
  - (* logout *)
    apply session_ok_intro; [exact Hl | discriminate].
  - (* create *)
    apply session_ok_intro; [|discriminate].
    eapply ledger_ok_same;
      [| |exact (ledger_ok_register st
                   (Account_init (PyStr.of_int n) (PyStr.of_int p) kind 0) Hl)];
      reflexivity.
  - (* login *)
    destruct (login st number pwd) as [r|] eqn:E.
    + destruct (heap st !! r) as [account|]; [|split; assumption].
      apply session_ok_intro.
      * eapply ledger_ok_same; [| |exact Hl]; reflexivity.
      * intros r0 [= <-]. eapply handle_ok_same;
          [| |exact (login_handle _ _ _ _ Hl E)]; reflexivity.
    + apply session_ok_intro; [|discriminate].
      eapply ledger_ok_same; [| |exact Hl]; reflexivity.
Qed.

Lemma run_ok rqs s : session_ok s -> session_ok (run s rqs).
Proof.
  unfold run. revert s. induction rqs as [|rq rqs IH]; intros s Hs; cbn [fold_left].
  - exact Hs.
  - apply IH. now apply main_step_ok.
Qed.

Lemma start_ok file s : start file = Some s -> session_ok s.
Proof.
  unfold start, BankingApp_init, load_accounts. cbn [disk].
  assert (H0 : ledger_ok {| heap := []; accounts := []; disk := file; stdout := [] |}).
  { split; cbn; [constructor | discriminate]. }
  destruct file as [text|].
  - destruct (load_lines _ (PyStr.readlines text)) as [st|] eqn:E; [|discriminate].
    intros [= <-]. apply session_ok_intro; [|discriminate].
    eapply load_lines_ledger_ok; eauto.
  - intros [= <-]. apply session_ok_intro; [exact H0 | discriminate].
Qed.

End SessionFacts.

Module MirrorFacts.

Lemma file_current_same st st' :
  heap st' = heap st -> accounts st' = accounts st -> disk st' = disk st ->
  file_current st -> file_current st'.
Proof.
  unfold file_current, values. intros -> -> ->. auto.
Qed.

Lemma file_current_saved line st : file_current (print line (save_accounts st)).
Proof. left. reflexivity. Qed.

Lemma main_step_current s rq :
  file_current (app s) -> file_current (app (main_step s rq)).
Proof.
  intros H. unfold main_step.
  destruct (current s) as [r|], rq; try exact H; cbn [app].
  - unfold menu_deposit. destruct (heap (app s) !! r); [|exact H].
    apply file_current_saved.
  - unfold menu_withdraw. destruct (heap (app s) !! r) as [account|]; [|exact H].
    destruct (withdraw account amount) as [account' []]; cbn [app].
    + apply file_current_saved.
    + eapply file_current_same; [| | |exact H]; reflexivity.
  - unfold transfer_money.
    destruct (heap (app s) !! r) as [sender|]; [|exact H].
    destruct (Dict.get to_number (accounts (app s))) as [to_account|];
      [|cbn [app]; eapply file_current_same; [| | |exact H]; reflexivity].
    destruct (withdraw sender amount) as [sender' []];
      [|cbn [app]; eapply file_current_same; [| | |exact H]; reflexivity].
    cbn zeta.
    destruct (<[r := sender']> (heap (app s)) !! to_account) as [recipient|];
      [|exact H].
    destruct (heap (save_accounts _) !! r); [|exact H].
    cbn [app]. left. reflexivity.
  - destruct (heap (app s) !! r) as [account|]; [|exact H].
    unfold delete_account.
    destruct (Dict.mem (account_number account) (accounts (app s))); cbn [app].
    + left. reflexivity.
    + eapply file_current_same; [| | |exact H]; reflexivity.
  - apply file_current_saved.
  - destruct (login (app s) number pwd) as [r|].
    + destruct (heap (app s) !! r); [|exact H].
      cbn [app]. eapply file_current_same; [| | |exact H]; reflexivity.
    + cbn [app]. eapply file_current_same; [| | |exact H]; reflexivity.
Qed.

End MirrorFacts.

(** A field property that [Account.__init__] establishes and a change of
    balance keeps holds of every object, whatever the run. *)
Section FieldInvariant.
Variable P : Account -> Prop.
Hypothesis P_init : forall number pwd kind b, P (Account_init number pwd kind b).
Hypothesis P_balance : forall a b, P a -> P (set_balance a b).

Lemma heap_all_insert h r a : heap_all P h -> P a -> heap_all P (<[r := a]> h).
  Proof.
    intros Hh Ha r' a' H.
    apply list_lookup_insert_Some in H as [(_ & <- & _)|[_ H]]; eauto.
  Qed.

Lemma heap_all_snoc h a : heap_all P h -> P a -> heap_all P (h ++ [a]).
  Proof.
    intros Hh Ha r' a' H.
    apply lookup_snoc_Some in H as [[_ H]|[_ <-]]; eauto.
  Qed.

Lemma P_withdraw a amount : P a -> P (fst (withdraw a amount)).
  Proof.
    unfold withdraw. destruct (amount <=? balance a)%float; cbn [fst]; auto.
  Qed.

Lemma transfer_money_all st r to_number amount st' ok :
    heap_all P (heap st) ->
    transfer_money st r to_number amount = Some (st', ok) -> heap_all P (heap st').
  Proof.
    intros H. unfold transfer_money.
    destruct (heap st !! r) as [sender|] eqn:Hr; [|discriminate].
    destruct (Dict.get to_number (accounts st)) as [to_account|];
      [|intros [= <- <-]; exact H].
    pose proof (P_withdraw sender amount (H _ _ Hr)) as Hw.
    destruct (withdraw sender amount) as [sender' []]; [|intros [= <- <-]; exact H].
    cbn [fst] in Hw. cbn zeta.
    assert (H1 : heap_all P (<[r := sender']> (heap st)))
      by now apply heap_all_insert.
    destruct (<[r := sender']> (heap st) !! to_account) as [recipient|] eqn:Hto;
      [|discriminate].
    intros [= <- <-]. cbn [heap save_accounts set_heap].
    apply heap_all_insert; [exact H1|]. apply P_balance. eauto.
  Qed.

Lemma main_step_all s rq :
    heap_all P (heap (app s)) -> heap_all P (heap (app (main_step s rq))).
  Proof.
    intros H. unfold main_step.
    destruct (current s) as [r|], rq; try exact H; cbn [app].
    - unfold menu_deposit. destruct (heap (app s) !! r) as [account|] eqn:Hr; [|exact H].
      cbn [app heap print save_accounts set_heap].
      apply heap_all_insert; [exact H|]. apply P_balance. eauto.
    - unfold menu_withdraw.
      destruct (heap (app s) !! r) as [account|] eqn:Hr; [|exact H].
      pose proof (P_withdraw account amount (H _ _ Hr)) as Hw.
      destruct (withdraw account amount) as [account' []]; cbn [fst] in Hw;
        cbn [app heap print save_accounts set_heap]; [|exact H].
      now apply heap_all_insert.
    - destruct (transfer_money (app s) r to_number amount) as [[st' ok]|] eqn:E;
        [|exact H].
      pose proof (transfer_money_all _ _ _ _ _ _ H E) as H'.
      destruct ok; [|exact H'].
      destruct (heap st' !! r); [exact H' | exact H].
    - destruct (heap (app s) !! r) as [account|]; [|exact H].
      unfold delete_account.
      destruct (Dict.mem (account_number account) (accounts (app s))); exact H.
    - cbn [create_account heap print save_accounts].
      apply heap_all_snoc; [exact H | apply P_init].
    - destruct (login (app s) number pwd) as [r|]; [|exact H].
      destruct (heap (app s) !! r); exact H.
  Qed.

Lemma run_all rqs s :
    heap_all P (heap (app s)) -> heap_all P (heap (app (run s rqs))).
  Proof.
    unfold run. revert s. induction rqs as [|rq rqs IH]; intros s H; cbn [fold_left].
    - exact H.
    - apply IH. now apply main_step_all.
  Qed.

Lemma load_lines_all lines st st' :
    load_lines st lines = Some st' -> heap_all P (heap st) -> heap_all P (heap st').
  Proof.
    revert st. induction lines as [|line lines IH]; intros st; cbn [load_lines].
    - now intros [= <-].
    - destruct (load_line st line) as [st1|] eqn:E; [|discriminate].
      intros H Hall. apply (IH _ H).
      apply LedgerFacts.load_line_register in E as (n & p & k & b & ->).
      cbn [register heap]. apply heap_all_snoc; [exact Hall | apply P_init].
  Qed.

Lemma start_all file s : start file = Some s -> heap_all P (heap (app s)).
  Proof.
    unfold start. destruct (BankingApp_init file) as [st|] eqn:E; [|discriminate].
    intros [= <-]. cbn [app]. unfold BankingApp_init, load_accounts in E.
    cbn [disk] in E. destruct file as [text|].
    - eapply load_lines_all; [exact E|]. intros r a H. destruct r; discriminate H.
    - injection E as <-. intros r a H. destruct r; discriminate H.
  Qed.

End FieldInvariant.

Module CommaFacts.

Lemma count_app s t : count_commas (s ++ t) = (count_commas s + count_commas t)%nat.
Proof. induction s as [|c s IH]; simpl; [reflexivity|]. rewrite IH. lia. Qed.

Lemma count_no_comma s : no_comma s = true -> count_commas s = 0%nat.
Proof.
  induction s as [|c s IH]; simpl; [reflexivity|].
  intros H. apply andb_true_iff in H as [Hc Hs]. apply negb_true_iff in Hc.
  rewrite Hc. auto.
Qed.

Lemma split_length s : length (PyStr.split "," s) = S (count_commas s).
Proof.
  induction s as [|c s IH]; cbn [PyStr.split count_commas]; [reflexivity|].
  destruct (Ascii.eqb c ","); cbn [length].
  - now rewrite IH.
  - destruct (PyStr.split "," s); cbn [length] in *; lia.
Qed.

Lemma space_not_comma c : PyStr.is_space c = true -> Ascii.eqb c "," = false.
Proof.
  destruct c as [[|] [|] [|] [|] [|] [|] [|] [|]]; vm_compute; congruence.
Qed.

Lemma count_lstrip s : count_commas (PyStr.lstrip s) = count_commas s.
Proof.
  induction s as [|c s IH]; cbn [PyStr.lstrip count_commas]; [reflexivity|].
  destruct (PyStr.is_space c) eqn:E; [|reflexivity].
  now rewrite IH, (space_not_comma _ E).
Qed.

Lemma count_rstrip s : count_commas (PyStr.rstrip s) = count_commas s.
Proof.
  induction s as [|c s IH]; cbn [PyStr.rstrip count_commas]; [reflexivity|].
  destruct (PyStr.rstrip s) as [|c' kept] eqn:E.
  - cbn [count_commas] in IH. rewrite <- IH.
    destruct (PyStr.is_space c) eqn:Hc.
    + now rewrite (space_not_comma _ Hc).
    + cbn [count_commas]. lia.
  - cbn [count_commas] in *. now rewrite IH.
Qed.

Lemma load_line_commas st line st' :
  load_line st line = Some st' -> count_commas line = 3%nat.
Proof.
  unfold load_line, PyStr.strip. intros H.
  pose proof (split_length (PyStr.rstrip (PyStr.lstrip line))) as Hl.
  rewrite count_rstrip, count_lstrip in Hl.
  destruct (PyStr.split "," (PyStr.rstrip (PyStr.lstrip line)))
    as [|n [|p [|k [|b [|]]]]]; try discriminate.
  cbn [length] in Hl. lia.
Qed.

Lemma load_line_heap st line st' :
  load_line st line = Some st' -> length (heap st') = S (length (heap st)).
Proof.
  intros H. apply LedgerFacts.load_line_register in H as (n & p & k & b & ->).
  cbn [register heap]. rewrite length_app. cbn [length]. lia.
Qed.

Lemma load_lines_commas lines st st' :
  load_lines st lines = Some st' ->
  Forall (fun line => count_commas line = 3%nat) lines
  /\ length (heap st') = (length (heap st) + length lines)%nat.
Proof.
  revert st. induction lines as [|line lines IH]; intros st; cbn [load_lines].
  - intros [= <-]. split; [constructor | cbn [length]; lia].
  - destruct (load_line st line) as [st1|] eqn:E; [|discriminate].
    intros H. destruct (IH _ H) as [Hall Hlen]. split.
    + constructor; [eapply load_line_commas; eauto | exact Hall].
    + rewrite Hlen, (load_line_heap _ _ _ E). cbn [length]. lia.
Qed.

End CommaFacts.

(* ===================================================================== *)
(** * Further properties of the code *)
(* ===================================================================== *)

(** ** [hash_password] and the stored credential *)

(** X1: the digest [hash_password] returns is always 64 lower-case
    hexadecimal characters; it holds no comma, no white space and no line
    end, so it can never break a record of the file. *)
Theorem hash_password_hex (pwd : string) :
  String.length (hash_password pwd) = 64%nat
  /\ all_chars hex_char (hash_password pwd) = true
  /\ no_comma (hash_password pwd) = true
  /\ one_line (hash_password pwd) = true.
Proof.
  destruct (HashFacts.hash_password_chars pwd) as (Hlen & Hhex & Hplain).
  repeat split; auto using CharFacts.plain_no_comma, FileFacts.plain_one_line.
Qed.

(** X2: whatever [accounts.txt] of ASCII text the program starts on (or none)
    and whatever is asked afterwards, the password field of every account
    object is 64 lower-case hexadecimal characters: what is kept in memory
    is always a digest, also for the accounts read from the file. *)
Theorem stored_password_is_digest (file : option string) (s0 : Session)
    (rqs : list request) (r : ref) (a : Account) :
  ascii_file file = true ->
  start file = Some s0 ->
  heap (app (run s0 rqs)) !! r = Some a ->
  String.length (password a) = 64%nat /\ all_chars hex_char (password a) = true.
Proof.
  intros _ Hstart Ha.
  assert (Hinit : forall number pwd kind b,
             String.length (password (Account_init number pwd kind b)) = 64%nat
             /\ all_chars hex_char (password (Account_init number pwd kind b)) = true).
  { intros number pwd kind b. cbn [Account_init password].
    destruct (HashFacts.hash_password_chars pwd) as (H1 & H2 & _). now split. }
  refine (run_all (fun a => String.length (password a) = 64%nat
                            /\ all_chars hex_char (password a) = true)
            Hinit _ rqs s0 _ r a Ha).
  - intros a0 b H. exact H.
  - eapply start_all; [exact Hinit | exact Hstart].
Qed.

(** The program started on [sample_file], then [sample_requests]: the second
    account read from the file holds the digest of the digest written. *)
Lemma stored_password_is_digest_witness :
  start (Some sample_file) = Some loaded_session
  /\ heap (app (run loaded_session sample_requests)) !! 1%nat = Some loaded_account
  /\ String.length (password loaded_account) = 64%nat.
Proof.
  assert (Hstart : start (Some sample_file) = Some loaded_session)
    by (vm_compute; reflexivity).
  assert (Ha : heap (app (run loaded_session sample_requests)) !! 1%nat
               = Some loaded_account)
    by (vm_compute; reflexivity).
  split; [exact Hstart|]. split; [exact Ha|].
  exact (proj1 (stored_password_is_digest (Some sample_file) loaded_session
                  sample_requests 1%nat loaded_account eq_refl Hstart Ha)).
Defined.

(** ** [create_account] *)

(** X3: two creations that draw different integers make two accounts: the
    second does not disturb the first, and each is found under its own
    number with its own digest, kind and a zero balance. *)
Theorem create_account_twice (st : State) (n p m q : Z) (kind kind' : string) :
  n <> m ->
  let st2 := create_account (create_account st n p kind) m q kind' in
  account_of st2 (PyStr.of_int n)
    = Some (Account_init (PyStr.of_int n) (PyStr.of_int p) kind 0)
  /\ account_of st2 (PyStr.of_int m)
    = Some (Account_init (PyStr.of_int m) (PyStr.of_int q) kind' 0).
Proof.
  intros Hnm st2. unfold st2, create_account, account_of.
  cbn [accounts heap print save_accounts].
  assert (Hkeys : PyStr.of_int m <> PyStr.of_int n)
    by (intros E; apply Hnm; symmetry; now apply of_int_injective).
  split.
  - rewrite DictFacts.get_set_ne, DictFacts.get_set_eq by assumption.
    rewrite lookup_app_l by (rewrite length_app; cbn [length]; lia).
    now apply list_lookup_middle.
  - rewrite DictFacts.get_set_eq. now apply list_lookup_middle.
Qed.

Lemma create_account_twice_witness :
  let st2 := create_account (create_account (mkState [] [] None []) 123456 1234 "savings")
               654321 4321 "current" in
  account_of st2 "123456" = Some (mkAccount "123456" (hash_password "1234") "savings" 0)
  /\ account_of st2 "654321" = Some (mkAccount "654321" (hash_password "4321") "current" 0).
Proof.
  refine (create_account_twice (mkState [] [] None []) 123456 1234 654321 4321
            "savings" "current" _).
  discriminate.
Defined.

(** X4: [create_account] leaves every account stored under another number as
    it was, and whoever could log in there still can; a number that was not
    a key is added as the last key. *)
Theorem create_account_keeps_others (st : State) (n p : Z) (kind : string) :
  let st' := create_account st n p kind in
  (forall k a, k <> PyStr.of_int n ->
     account_of st k = Some a -> account_of st' k = Some a)
  /\ (forall k pwd r, k <> PyStr.of_int n ->
        login st k pwd = Some r -> login st' k pwd = Some r)
  /\ (Dict.mem (PyStr.of_int n) (accounts st) = false ->
      Dict.keys (accounts st') = (Dict.keys (accounts st) ++ [PyStr.of_int n])%list).
Proof.
  intros st'. unfold st', create_account, account_of, login.
  cbn [accounts heap print save_accounts]. repeat split.
  - intros k a Hk. rewrite DictFacts.get_set_ne by congruence.
    destruct (Dict.get k (accounts st)) as [r|]; [|discriminate].
    intros Hr. rewrite lookup_app_l; auto. eapply lookup_lt_Some; eauto.
  - intros k pwd r Hk. rewrite DictFacts.get_set_ne by congruence.
    destruct (Dict.get k (accounts st)) as [r'|]; [|discriminate].
    destruct (heap st !! r') as [a|] eqn:Hr; [|discriminate].
    rewrite lookup_app_l by (eapply lookup_lt_Some; eauto).
    unfold ref in *. now rewrite Hr.
  - apply DictFacts.keys_set_absent.
Qed.

(** ** [delete_account] *)

(** X5: [delete_account]: an absent number changes nothing and gives
    [False]; a present one gives [True], leaves the dict without that key and
    with every other entry, touches no object, rewrites the file from what
    is left, and no password logs in under that number any more. *)
Theorem delete_account_spec (st : State) (number : string) :
  List.NoDup (Dict.keys (accounts st)) ->
  (Dict.mem number (accounts st) = false -> delete_account st number = (st, false))
  /\ (Dict.mem number (accounts st) = true ->
      exists st',
        delete_account st number = (st', true)
        /\ Dict.get number (accounts st') = None
        /\ (forall k, k <> number ->
              Dict.get k (accounts st') = Dict.get k (accounts st))
        /\ heap st' = heap st
        /\ disk st' = Some (PyStr.concat (map to_string (values st')))
        /\ forall pwd, login st' number pwd = None).
Proof.
  intros Hnd. unfold delete_account. split; intros Hmem; rewrite Hmem; [reflexivity|].
  eexists. split; [reflexivity|]. cbn [accounts heap disk save_accounts].
  pose proof (DictMore.get_del_eq number _ Hnd) as Hdel.
  repeat split; auto.
  - intros k Hk. apply DictMore.get_del_ne. congruence.
  - intros pwd. unfold login, save_accounts. cbn [accounts]. now rewrite Hdel.
Qed.

Lemma delete_account_spec_witness :
  exists st',
    delete_account (two_accounts 50 0) "100001" = (st', true)
    /\ Dict.get "100001" (accounts st') = None
    /\ Dict.get "100002" (accounts st') = Some 1%nat.
Proof.
  assert (Hnd : List.NoDup (Dict.keys (accounts (two_accounts 50 0)))).
  { repeat constructor; simpl; intuition discriminate. }
  destruct (proj2 (delete_account_spec (two_accounts 50 0) "100001" Hnd) eq_refl)
    as (st' & Hcall & Hgone & Hother & _).
  exists st'. split; [exact Hcall|]. split; [exact Hgone|].
  rewrite Hother by discriminate. reflexivity.
Defined.

(** X6: in a session, action 4 always deletes: the session ends, the number
    is no longer a key, so no password logs in there again, no account
    object is touched, and the success message is the last line printed. *)
Theorem session_delete (s : Session) (r : ref) (a : Account) :
  session_ok s -> current s = Some r -> heap (app s) !! r = Some a ->
  let s' := main_step s Delete in
  current s' = None
  /\ Dict.get (account_number a) (accounts (app s')) = None
  /\ (forall pwd, login (app s') (account_number a) pwd = None)
  /\ heap (app s') = heap (app s)
  /\ last (stdout (app s')) = Some "Account deleted successfully.".
Proof.
  intros [[Hnd _] Hh] Hc Ha s'. unfold s', main_step.
  destruct (Hh _ Hc) as (a' & Ha' & Hk). unfold ref in *.
  rewrite Ha in Ha'. injection Ha' as <-.
  rewrite Hc, Ha. unfold delete_account.
  rewrite (DictFacts.mem_get _ _ _ Hk).
  cbn [app current accounts heap stdout print save_accounts].
  pose proof (DictMore.get_del_eq (account_number a) _ Hnd) as Hdel.
  repeat split; auto.
  - intros pwd. unfold login, print, save_accounts. cbn [accounts]. now rewrite Hdel.
  - apply last_snoc.
Qed.

Lemma session_delete_witness :
  let s := run fresh_session [Create "savings" 123456 1234; Login "123456" "1234"] in
  current (main_step s Delete) = None
  /\ Dict.get "123456" (accounts (app (main_step s Delete))) = None.
Proof.
  intros s.
  assert (Hs : session_ok s)
    by exact (SessionFacts.run_ok _ _ (SessionFacts.start_ok None fresh_session eq_refl)).
  destruct (session_delete s 0%nat sample_account Hs) as (H1 & H2 & _);
    [vm_compute; reflexivity | vm_compute; reflexivity |].
  split; [exact H1 | exact H2].
Defined.

(** ** [transfer_money] *)

(** X7: [transfer_money] never adds, removes or renames an account: the dict
    and the number of objects are the same, every object keeps its number,
    digest and kind, and an object that is neither the sender nor the
    recipient is untouched. *)
Theorem transfer_money_frame (st : State) (r : ref) (to_number : string)
    (amount : float) (st' : State) (ok : bool) :
  transfer_money st r to_number amount = Some (st', ok) ->
  accounts st' = accounts st
  /\ length (heap st') = length (heap st)
  /\ forall r0 a0, heap st !! r0 = Some a0 ->
       exists a0', heap st' !! r0 = Some a0'
         /\ account_number a0' = account_number a0
         /\ password a0' = password a0
         /\ account_type a0' = account_type a0
         /\ (r0 <> r -> Dict.get to_number (accounts st) <> Some r0 -> a0' = a0).
Proof.
  unfold transfer_money.
  destruct (heap st !! r) as [sender|] eqn:Hr; [|discriminate].
  destruct (Dict.get to_number (accounts st)) as [to_account|] eqn:Ht.
  2: { intros [= <- <-]. repeat split; auto. intros r0 a0 H0. exists a0. tauto. }
  assert (Hw : fst (withdraw sender amount) = sender
               \/ fst (withdraw sender amount)
                  = set_balance sender (balance sender - amount)%float).
  { unfold withdraw. destruct (amount <=? balance sender)%float; auto. }
  destruct (withdraw sender amount) as [sender' []]; cbn [fst] in Hw.
  2: { intros [= <- <-]. repeat split; auto. intros r0 a0 H0. exists a0. tauto. }
  cbn zeta.
  destruct (<[r := sender']> (heap st) !! to_account) as [recipient|] eqn:Hto;
    [|discriminate].
  intros [= <- <-]. cbn [accounts heap save_accounts set_heap].
  split; [reflexivity|]. split; [now rewrite !length_insert|].
  intros r0 a0 H0.
  assert (Hs' : account_number sender' = account_number sender
                /\ password sender' = password sender
                /\ account_type sender' = account_type sender)
    by (destruct Hw as [->| ->]; repeat split).
  (* the object at [r0] after the debit *)
  assert (H1 : exists a1, <[r := sender']> (heap st) !! r0 = Some a1
                 /\ account_number a1 = account_number a0
                 /\ password a1 = password a0
                 /\ account_type a1 = account_type a0
                 /\ (r0 <> r -> a1 = a0)).
  { destruct (decide (r = r0)) as [->|Hne].
    - unfold ref in *. rewrite Hr in H0. injection H0 as <-.
      exists sender'. split; [apply list_lookup_insert_eq; eapply lookup_lt_Some; eauto|].
      tauto.
    - exists a0. split; [now rewrite list_lookup_insert_ne|]. tauto. }
  destruct H1 as (a1 & Ha1 & N1 & P1 & K1 & E1).
  destruct (decide (to_account = r0)) as [->|Hne].
  - unfold ref in *. rewrite Hto in Ha1. injection Ha1 as ->.
    exists (deposit a1 amount).
    split; [apply list_lookup_insert_eq; rewrite length_insert;
            eapply lookup_lt_Some; eauto|].
    repeat split; auto. intros _ Hx. now destruct Hx.
  - exists a1. split; [now rewrite list_lookup_insert_ne|].
    repeat split; auto.
Qed.

Lemma transfer_money_frame_witness :
  exists st',
    transfer_money (two_accounts 50 0) 0%nat "100002" 30 = Some (st', true)
    /\ accounts st' = accounts (two_accounts 50 0)
    /\ length (heap st') = 2%nat.
Proof.
  eexists. split; [reflexivity|].
  destruct (transfer_money_frame (two_accounts 50 0) 0%nat "100002" 30 _ true eq_refl)
    as (H1 & H2 & _).
  split; [exact H1 | exact H2].
Defined.

(** ** The ledger along runs of [main] *)

(** X8: whatever [accounts.txt] of ASCII text the program starts on (or
    none), as long as it loads, and whatever is asked afterwards: the dict
    never holds a key twice, every key names an account object carrying that
    number, and the account of the open session is the one the dict holds
    under its number. *)
Theorem ledger_consistent (file : option string) (s0 : Session) (rqs : list request) :
  ascii_file file = true ->
  start file = Some s0 -> session_ok (run s0 rqs).
Proof.
  intros _ H. apply SessionFacts.run_ok. eapply SessionFacts.start_ok; eauto.
Qed.

(** The program started on [sample_file], whose two records give the keys
    100001 and 100002, then [sample_requests], which add 123456. *)
Lemma ledger_consistent_witness :
  start (Some sample_file) = Some loaded_session
  /\ Dict.keys (accounts (app (run loaded_session sample_requests)))
     = ["100001"; "100002"; "123456"]
  /\ session_ok (run loaded_session sample_requests).
Proof.
  assert (Hstart : start (Some sample_file) = Some loaded_session)
    by (vm_compute; reflexivity).
  split; [exact Hstart|].
  split; [vm_compute; reflexivity|].
  exact (ledger_consistent (Some sample_file) loaded_session sample_requests
           eq_refl Hstart).
Defined.

(** X9: once the file is the serialization of the accounts in memory (as
    on a start without a file, where there is neither a file nor an
    account), it is so again after every request: what is credited,
    debited, created or deleted is on disk before the next request. *)
Theorem file_mirrors_memory (s0 : Session) (rqs : list request) :
  file_current (app s0) -> file_current (app (run s0 rqs)).
Proof.
  unfold run. revert s0. induction rqs as [|rq rqs IH]; intros s0 H; cbn [fold_left].
  - exact H.
  - apply IH. now apply MirrorFacts.main_step_current.
Qed.

Lemma file_mirrors_memory_witness :
  file_current (app (run fresh_session sample_requests)).
Proof.
  apply (file_mirrors_memory fresh_session sample_requests).
  right. split; reflexivity.
Defined.

(** ** The file format *)

(** X10: the record of an account whose number, digest and kind hold no comma
    has exactly three commas; if they hold no line end either, the record
    is one line of the file. *)
Theorem to_string_one_record (a : Account) :
  no_comma (account_number a) = true -> no_comma (password a) = true ->
  no_comma (account_type a) = true ->
  count_commas (to_string a) = 3%nat
  /\ (one_line (account_number a) = true -> one_line (password a) = true ->
      one_line (account_type a) = true ->
      PyStr.readlines (to_string a) = [to_string a]).
Proof.
  intros Hn Hp Hk.
  destruct (repr_plain (balance a)) as [Hb _].
  split.
  - unfold to_string. cbn [String.append].
    rewrite !CommaFacts.count_app. cbn [count_commas Ascii.eqb Bool.eqb].
    rewrite !CommaFacts.count_app. cbn [count_commas Ascii.eqb Bool.eqb].
    rewrite !CommaFacts.count_app. cbn [count_commas Ascii.eqb Bool.eqb].
    rewrite !CommaFacts.count_app.
    rewrite !CommaFacts.count_no_comma
      by auto using CharFacts.plain_no_comma.
    reflexivity.
  - intros Ln Lp Lk.
    assert (Hone : one_line (record_body a) = true).
    { apply FileFacts.plain_one_line in Hb.
      unfold one_line, record_body in *. cbn [String.append].
      rewrite !CharFacts.all_chars_app. cbn [all_chars].
      rewrite !CharFacts.all_chars_app. cbn [all_chars].
      rewrite !CharFacts.all_chars_app. cbn [all_chars].
      now rewrite Ln, Lp, Lk, Hb. }
    assert (H : Forall (fun s => one_line s = true) [record_body a])
      by (constructor; [exact Hone | constructor]).
    apply FileFacts.readlines_concat in H.
    cbn [map] in H. unfold PyStr.concat in H. cbn [fold_right] in H.
    rewrite FileFacts.append_empty_r, <- FileFacts.to_string_body in H.
    exact H.
Qed.

Lemma to_string_one_record_witness :
  count_commas (to_string sample_account) = 3%nat.
Proof.
  refine (proj1 (to_string_one_record sample_account _ _ _)); vm_compute; reflexivity.
Defined.



(** X12: saving accounts of ASCII fields and starting again: the file loads;
    the objects are, in dict order, the saved accounts with the same number,
    kind and balance and the digest hashed once more; with distinct numbers
    each is found under its number. *)
Theorem restart_after_save (st : State) :
  Forall ascii_account (values st) ->
  Forall savable (values st) ->
  exists st',
    BankingApp_init (disk (save_accounts st)) = Some st'
    /\ heap st' = map reloaded (values st)
    /\ disk st' = disk (save_accounts st)
    /\ (List.NoDup (map account_number (values st)) ->
        forall a, a ∈ values st ->
                  account_of st' (account_number a) = Some (reloaded a)).
Proof. intros _ H. exact (FileFacts.restart st H). Qed.

Lemma restart_after_save_witness :
  exists st',
    BankingApp_init (disk (save_accounts (two_accounts 50 0))) = Some st'
    /\ heap st' = [mkAccount "100001" (hash_password (hash_password "1111")) "savings" 50;
                   mkAccount "100002" (hash_password (hash_password "2222")) "current" 0].
Proof.
  assert (H : Forall savable (values (two_accounts 50 0))).
  { repeat constructor; vm_compute; reflexivity. }
  assert (Hascii : Forall ascii_account (values (two_accounts 50 0))).
  { repeat constructor; vm_compute; reflexivity. }
  destruct (restart_after_save (two_accounts 50 0) Hascii H)
    as (st' & Hinit & Hheap & _).
  exists st'. split; [exact Hinit | exact Hheap].
Defined.

(** X13: the first account ever created, then a restart: the file loads and holds
    the account under its number with kind and zero balance, but with the
    digest of its digest; the password printed at creation logs in only if
    its digest is a fixed point of [hash_password]. *)
Theorem create_then_restart (st : State) (n p : Z) (kind : string) :
  accounts st = [] -> no_comma kind = true -> one_line kind = true ->
  exists st',
    BankingApp_init (disk (create_account st n p kind)) = Some st'
    /\ account_of st' (PyStr.of_int n)
       = Some (mkAccount (PyStr.of_int n)
                 (hash_password (hash_password (PyStr.of_int p))) kind 0)
    /\ (login st' (PyStr.of_int n) (PyStr.of_int p) <> None <->
        hash_password (hash_password (PyStr.of_int p)) = hash_password (PyStr.of_int p)).
Proof.
  intros Hempty Hk1 Hk2.
  set (a := Account_init (PyStr.of_int n) (PyStr.of_int p) kind 0).
  set (st1 := register st a).
  assert (Hvalues : values st1 = [a]).
  { unfold values, st1, register. cbn [accounts heap]. rewrite Hempty.
    cbn -[hash_password PyStr.of_int lookup].
    rewrite list_lookup_middle by reflexivity. reflexivity. }
  assert (Hsav : savable a).
  { destruct (HashFacts.hash_password_chars (PyStr.of_int p)) as (_ & _ & Hp).
    pose proof (IntFacts.of_int_plain n) as Hn.
    unfold savable, a. cbn [Account_init account_number password account_type balance].
    repeat split;
      auto using CharFacts.plain_no_comma, CharFacts.plain_no_leading_space,
                 FileFacts.plain_one_line. }
  destruct (FileFacts.restart st1) as (st' & Hinit & _ & _ & Hfind).
  { rewrite Hvalues. constructor; [exact Hsav | constructor]. }
  exists st'. split; [exact Hinit|].
  assert (Hacc : account_of st' (PyStr.of_int n) = Some (reloaded a)).
  { apply (Hfind ltac:(rewrite Hvalues; repeat constructor; intros []) a).
    rewrite Hvalues. apply list_elem_of_here. }
  split; [exact Hacc|].
  unfold account_of in Hacc. unfold login.
  destruct (Dict.get (PyStr.of_int n) (accounts st')) as [r|]; [|discriminate].
  unfold ref in *. rewrite Hacc. cbn [reloaded a Account_init password].
  destruct (String.eqb_spec (hash_password (hash_password (PyStr.of_int p)))
              (hash_password (PyStr.of_int p))) as [E|E].
  - split; [intros _; exact E | discriminate].
  - split; [intros H; now destruct H | intros H; contradiction].
Qed.

Lemma create_then_restart_witness :
  exists st',
    BankingApp_init (disk (create_account (mkState [] [] None []) 123456 1234 "savings"))
      = Some st'
    /\ account_of st' "123456"
       = Some (mkAccount "123456" (hash_password (hash_password "1234")) "savings" 0).
Proof.
  destruct (create_then_restart (mkState [] [] None []) 123456 1234 "savings"
              eq_refl eq_refl eq_refl) as (st' & H1 & H2 & _).
  exists st'. split; [exact H1 | exact H2].
Defined.

(** X14: [BankingApp()] on an existing file of ASCII text returns only if
    every line of the file has exactly three commas, and then holds one
    account object per line: a line with fewer or more fields, a blank line
    included, makes the whole start fail. *)
Theorem load_accounts_strict (text : string) (st : State) :
  ascii_text text = true ->
  BankingApp_init (Some text) = Some st ->
  Forall (fun line => count_commas line = 3%nat) (PyStr.readlines text)
  /\ length (heap st) = length (PyStr.readlines text).
Proof.
  unfold BankingApp_init, load_accounts. cbn [disk]. intros _ H.
  apply CommaFacts.load_lines_commas in H. exact H.
Qed.

(** [sample_file] loads: its two lines have three commas each and give two
    account objects. *)
Lemma load_accounts_strict_witness :
  BankingApp_init (Some sample_file) = Some (app loaded_session)
  /\ length (PyStr.readlines sample_file) = 2%nat
  /\ Forall (fun line => count_commas line = 3%nat) (PyStr.readlines sample_file)
  /\ length (heap (app loaded_session)) = length (PyStr.readlines sample_file).
Proof.
  assert (Hinit : BankingApp_init (Some sample_file) = Some (app loaded_session))
    by (vm_compute; reflexivity).
  split; [exact Hinit|].
  split; [vm_compute; reflexivity|].
  exact (load_accounts_strict sample_file (app loaded_session) eq_refl Hinit).
Defined.

(** A blank line in the file is fatal. *)
Lemma blank_line_is_fatal (st : State) : load_line st PyStr.newline = None.
Proof. reflexivity. Qed.
